(** * A shallow embedding of the mcp_weather server (tool registry, handlers,
    services and helpers) and the properties of its specification.

    Python values are modelled as follows:
    - JSON values (arguments, HTTP bodies, payloads) as the inductive [json];
      JSON objects and Python dicts as association lists, looked up at the
      last binding as [json.loads] keeps the last duplicate key;
    - Python floats as exact rationals [Q];
    - instants as [Z] microseconds since the Unix epoch (UTC);
    - exceptions as the inductive [exn] and fallible code in the error
      monad [result]. *)

From Stdlib Require Import String Ascii ZArith QArith Qround Qabs List Bool Lia Lqa.
Import ListNotations.
Open Scope string_scope.
Open Scope Z_scope.
#[local] Set Warnings "-register-all".

(* ------------------------------------------------------------------ *)
(** ** Python values and exceptions *)

Inductive json : Type :=
| JNull
| JBool (b : bool)
| JNum (q : Q)
| JStr (s : string)
| JArr (l : list json)
| JObj (kvs : list (string * json)).

(** Python exception classes raised by the code; the payload is [str(e)].
    [json.JSONDecodeError] is a subclass of [ValueError]. *)
Inductive exn : Type :=
| ValueError (msg : string)
| RuntimeError (msg : string)
| KeyError (msg : string)
| IndexError (msg : string)
| TypeError (msg : string)
| AttributeError (msg : string)
| McpError (msg : string)
| OverflowError (msg : string)
| OtherError (msg : string).

Definition exn_str (e : exn) : string :=
  match e with
  | ValueError m | RuntimeError m | KeyError m | IndexError m
  | TypeError m | AttributeError m | McpError m | OverflowError m | OtherError m => m
  end.

Inductive result (A : Type) : Type :=
| Ok (a : A)
| Raise (e : exn).
Arguments Ok {A} a.
Arguments Raise {A} e.

Definition bind {A B} (m : result A) (k : A -> result B) : result B :=
  match m with
  | Ok a => k a
  | Raise e => Raise e
  end.

Notation "x <- m ;; k" := (bind m (fun x => k))
  (at level 61, m at next level, right associativity).
Notation "' pat <- m ;; k" := (bind m (fun pat => k))
  (at level 61, pat pattern, m at next level, right associativity).

(** Lookup in a dict / JSON object: the last binding of the key wins. *)
Definition obj_lookup {A} (k : string) (kvs : list (string * A)) : option A :=
  fold_left (fun acc '(k', v) => if String.eqb k k' then Some v else acc) kvs None.

(** [k in d] for a dict. *)
Definition dict_mem {A} (k : string) (kvs : list (string * A)) : bool :=
  existsb (fun '(k', _) => String.eqb k k') kvs.

(** Python truthiness of a JSON value. *)
Definition truthy (v : json) : bool :=
  match v with
  | JNull => false
  | JBool b => b
  | JNum q => negb (Qeq_bool q 0%Q)
  | JStr s => negb (String.eqb s "")
  | JArr l => match l with [] => false | _ => true end
  | JObj kvs => match kvs with [] => false | _ => true end
  end.

(** Python's type name, used in the messages of [TypeError]. A [JNum] does
    not record whether the JSON text wrote the number as an integer, which
    [json.loads] reads as an [int], or with a fraction or an exponent, read
    as a [float]; it is named ["float"]. *)
Definition type_name (v : json) : string :=
  match v with
  | JNull => "NoneType"
  | JBool _ => "bool"
  | JNum _ => "float"
  | JStr _ => "str"
  | JArr _ => "list"
  | JObj _ => "dict"
  end.

(** ["sep".join(parts)]. *)
Fixpoint join (sep : string) (parts : list string) : string :=
  match parts with
  | [] => ""
  | [p] => p
  | p :: rest => p ++ sep ++ join sep rest
  end.

(** Decimal rendering of an integer, as in an f-string. *)
Fixpoint digits_N (fuel : nat) (n : N) (acc : string) : string :=
  match fuel with
  | O => acc
  | S f =>
      let acc' := String (ascii_of_N (48 + N.modulo n 10)) acc in
      let q := N.div n 10 in
      if N.eqb q 0 then acc' else digits_N f q acc'
  end.

Definition z_to_string (z : Z) : string :=
  let s := digits_N (S (N.size_nat (Z.abs_N z))) (Z.abs_N z) "" in
  if Z.ltb z 0 then "-" ++ s else s.

(* ------------------------------------------------------------------ *)
(** ** ToolHandler.validate_required_args (src/tools/toolhandler.py) *)

(** A tool's arguments: a dict from strings to JSON values. *)
Definition args_t := list (string * json).

(** [missing_fields = [field for field in required_fields if field not in args]]
    then raise when the list is non-empty. *)
Definition missing_fields (args : args_t) (required_fields : list string) : list string :=
  filter (fun field => negb (dict_mem field args)) required_fields.

Definition validate_required_args (args : args_t) (required_fields : list string)
  : result unit :=
  let missing := missing_fields args required_fields in
  match missing with
  | [] => Ok tt
  | _ => Raise (RuntimeError ("Missing required arguments: " ++ join ", " missing))
  end.

(* ------------------------------------------------------------------ *)
(** ** AirQualityService._get_pm25_level (src/tools/air_quality_service.py) *)

Definition get_pm25_level (pm25 : Q) : string :=
  if Qle_bool pm25 12%Q then "Good"
  else if Qle_bool pm25 35%Q then "Moderate"
  else if Qle_bool pm25 55%Q then "Unhealthy for Sensitive Groups"
  else if Qle_bool pm25 150%Q then "Unhealthy"
  else if Qle_bool pm25 250%Q then "Very Unhealthy"
  else "Hazardous".

(* ------------------------------------------------------------------ *)
(** ** WeatherService._degrees_to_compass (src/tools/weather_service.py) *)

Definition directions : list string :=
  ["N"; "NNE"; "NE"; "ENE"; "E"; "ESE"; "SE"; "SSE";
   "S"; "SSW"; "SW"; "WSW"; "W"; "WNW"; "NW"; "NNW"].

(** Python's [round(x)] on a number: to the nearest integer, halves to the
    even neighbour. *)
Definition py_round (x : Q) : Z :=
  let fl := Z.div (Qnum x) (Zpos (Qden x)) in
  let frac := Qminus x (inject_Z fl) in
  match Qcompare frac (1 # 2) with
  | Lt => fl
  | Gt => fl + 1
  | Eq => if Z.even fl then fl else fl + 1
  end.

(** [index = round(degrees / 22.5) % 16]; [%] is the floor modulo, like [Z.modulo]. *)
Definition degrees_to_compass (degrees : Q) : string :=
  let index := Z.modulo (py_round (Qdiv degrees (45 # 2))) 16 in
  nth (Z.to_nat index) directions "".

(* ------------------------------------------------------------------ *)
(** ** utils.weather_descriptions (src/utils.py) *)

Definition weather_descriptions : list (Z * string) :=
  [(0, "Clear sky"); (1, "Mainly clear"); (2, "Partly cloudy"); (3, "Overcast");
   (45, "Fog"); (48, "Depositing rime fog");
   (51, "Light drizzle"); (53, "Moderate drizzle"); (55, "Dense drizzle");
   (56, "Light freezing drizzle"); (57, "Dense freezing drizzle");
   (61, "Slight rain"); (63, "Moderate rain"); (65, "Heavy rain");
   (66, "Light freezing rain"); (67, "Heavy freezing rain");
   (71, "Slight snow fall"); (73, "Moderate snow fall"); (75, "Heavy snow fall");
   (77, "Snow grains");
   (80, "Slight rain showers"); (81, "Moderate rain showers"); (82, "Violent rain showers");
   (85, "Slight snow showers"); (86, "Heavy snow showers");
   (95, "Thunderstorm"); (96, "Thunderstorm with slight hail");
   (99, "Thunderstorm with heavy hail")].

Fixpoint zdict_get {A} (k : Z) (d : list (Z * A)) (default : A) : A :=
  match d with
  | [] => default
  | (k', v) :: rest => if Z.eqb k k' then v else zdict_get k rest default
  end.

(** [utils.weather_descriptions.get(code, "Unknown weather condition")], the
    expression of [get_current_weather] and [get_weather_by_date_range]. *)
Definition weather_description (code : Z) : string :=
  zdict_get code weather_descriptions "Unknown weather condition".

(* ------------------------------------------------------------------ *)
(** ** Python operators on JSON values *)

Fixpoint str_contains (pat s : string) : bool :=
  String.prefix pat s ||
  match s with
  | EmptyString => false
  | String _ s' => str_contains pat s'
  end.

Definition json_eqb_str (k : string) (v : json) : bool :=
  match v with JStr s => String.eqb s k | _ => false end.

(** [k in v] for a string [k]. *)
Definition py_contains_str (k : string) (v : json) : result bool :=
  match v with
  | JObj kvs => Ok (dict_mem k kvs)
  | JArr l => Ok (existsb (json_eqb_str k) l)
  | JStr s => Ok (str_contains k s)
  | _ => Raise (TypeError ("argument of type '" ++ type_name v ++ "' is not iterable"))
  end.

(** [v[k]] for a string [k]. *)
Definition getitem_str (v : json) (k : string) : result json :=
  match v with
  | JObj kvs =>
      match obj_lookup k kvs with
      | Some x => Ok x
      | None => Raise (KeyError ("'" ++ k ++ "'"))
      end
  | JArr _ => Raise (TypeError "list indices must be integers or slices, not str")
  | JStr _ => Raise (TypeError "string indices must be integers, not 'str'")
  | _ => Raise (TypeError ("'" ++ type_name v ++ "' object is not subscriptable"))
  end.

(** [v[0]]; JSON object keys are strings, so the integer key [0] is never one. *)
Definition getitem_zero (v : json) : result json :=
  match v with
  | JArr (x :: _) => Ok x
  | JArr [] => Raise (IndexError "list index out of range")
  | JObj _ => Raise (KeyError "0")
  | JStr (String c _) => Ok (JStr (String c EmptyString))
  | JStr EmptyString => Raise (IndexError "string index out of range")
  | _ => Raise (TypeError ("'" ++ type_name v ++ "' object is not subscriptable"))
  end.

(* ------------------------------------------------------------------ *)
(** ** HTTP responses *)

(** The outcome of one [client.get(url)]: an [httpx.RequestError], or a
    response with its status code and its body: [Some v] for the JSON text
    of [v], [None] for an empty body. Other bodies that are not JSON text
    are not modelled. *)
Inductive http_response : Type :=
| RequestError (msg : string)
| Response (status_code : Z) (body : option json).

(** [response.json()], that is [json.loads] of the body; on an empty body
    it raises [json.JSONDecodeError], a [ValueError], whose message points
    at the first character. *)
Definition response_json (body : option json) : result json :=
  match body with
  | Some v => Ok v
  | None => Raise (ValueError "Expecting value: line 1 column 1 (char 0)")
  end.

(* ------------------------------------------------------------------ *)
(** ** WeatherService.get_coordinates (src/tools/weather_service.py) *)

Definition BASE_GEO_URL : string := "https://geocoding-api.open-meteo.com/v1/search".

(** The body of the [try] block, from the status check on. *)
Definition get_coordinates_body (city : string) (status_code : Z) (body : option json)
  : result (json * json) :=
  if negb (Z.eqb status_code 200)
  then Raise (ValueError ("Geocoding API returned status " ++ z_to_string status_code))
  else
    geo_data <- response_json body ;;
    has_results <- py_contains_str "results" geo_data ;;
    results <-
      (if negb has_results
       then Raise (ValueError ("No coordinates found for city: " ++ city))
       else
         results <- getitem_str geo_data "results" ;;
         if negb (truthy results)
         then Raise (ValueError ("No coordinates found for city: " ++ city))
         else Ok results) ;;
    result0 <- getitem_zero results ;;
    latitude <- getitem_str result0 "latitude" ;;
    longitude <- getitem_str result0 "longitude" ;;
    Ok (latitude, longitude).

(** [http_get] is the HTTP client: it maps the requested URL to the outcome. *)
Definition get_coordinates (http_get : string -> http_response) (city : string)
  : result (json * json) :=
  match http_get (BASE_GEO_URL ++ "?name=" ++ city) with
  | RequestError m =>
      Raise (ValueError ("Network error while fetching coordinates for " ++ city ++ ": " ++ m))
  | Response status_code body =>
      match get_coordinates_body city status_code body with
      | Raise (KeyError m) | Raise (IndexError m) =>
          Raise (ValueError ("Invalid response format from geocoding API: " ++ m))
      | r => r
      end
  end.

(* ------------------------------------------------------------------ *)
(** ** utils.get_closest_utc_index (src/utils.py) *)

(** A datetime as [dateutil.parser.isoparse] returns it: the wall-clock time
    (microseconds, counted as if it were UTC) and the UTC offset of its
    [tzinfo] (microseconds), [None] for a naive datetime. *)
Record parsed_datetime : Type := {
  p_local : Z;
  p_offset : option Z
}.

(** Days from 1970-01-01 to a proleptic Gregorian date. *)
Definition days_from_civil (y m d : Z) : Z :=
  let y' := if m <=? 2 then y - 1 else y in
  let era := y' / 400 in
  let yoe := y' - era * 400 in
  let mp := if m >? 2 then m - 3 else m + 9 in
  let doy := (153 * mp + 2) / 5 + d - 1 in
  let doe := yoe * 365 + yoe / 4 - yoe / 100 + doy in
  era * 146097 + doe - 719468.

Definition is_leap (y : Z) : bool :=
  (Z.eqb (y mod 4) 0 && negb (Z.eqb (y mod 100) 0)) || Z.eqb (y mod 400) 0.

Definition days_in_month (y m : Z) : Z :=
  if Z.eqb m 2 then (if is_leap y then 29 else 28)
  else if existsb (Z.eqb m) [4; 6; 9; 11] then 30 else 31.

Definition digit_val (c : ascii) : option Z :=
  let n := Z.of_N (N_of_ascii c) in
  if (48 <=? n) && (n <=? 57) then Some (n - 48) else None.

(** [bytes.isspace] on one byte, the whitespace [int()] strips: space, tab,
    line feed, vertical tab, form feed, carriage return. *)
Definition py_isspace (c : ascii) : bool :=
  let n := nat_of_ascii c in Nat.eqb n 32 || (Nat.leb 9 n && Nat.leb n 13).

Fixpoint lstrip_space (cs : list ascii) : list ascii :=
  match cs with
  | c :: rest => if py_isspace c then lstrip_space rest else cs
  | [] => []
  end.

Definition strip_space (cs : list ascii) : list ascii :=
  rev (lstrip_space (rev (lstrip_space cs))).

(** The digits of a base-10 literal, single underscores allowed between
    digits; [started]: a digit has been read, [prev_us]: the last byte was
    an underscore. *)
Fixpoint int_digits (cs : list ascii) (acc : Z) (started prev_us : bool) : option Z :=
  match cs with
  | [] => if started && negb prev_us then Some acc else None
  | c :: rest =>
      match digit_val c with
      | Some d => int_digits rest (acc * 10 + d) true false
      | None =>
          if Ascii.eqb c "_"%char && started && negb prev_us
          then int_digits rest acc true true else None
      end
  end.

Definition hex_digit (n : nat) : ascii :=
  ascii_of_nat (if Nat.ltb n 10 then 48 + n else 87 + n)%nat.

(** [repr(b)] for a bytes object [b]. *)
Definition bytes_repr (cs : list ascii) : string :=
  let dq := ascii_of_nat 34 in
  let sq := "'"%char in
  let bs := "\"%char in
  let quote := if existsb (Ascii.eqb sq) cs && negb (existsb (Ascii.eqb dq) cs)
               then dq else sq in
  let esc (c : ascii) : string :=
    let n := nat_of_ascii c in
    if Ascii.eqb c quote || Ascii.eqb c bs then String bs (String c EmptyString)
    else if Nat.eqb n 9 then String bs "t"
    else if Nat.eqb n 10 then String bs "n"
    else if Nat.eqb n 13 then String bs "r"
    else if Nat.ltb n 32 || Nat.leb 127 n
    then String bs (String "x"%char (String (hex_digit (Nat.div n 16))
                                      (String (hex_digit (Nat.modulo n 16)) EmptyString)))
    else String c EmptyString in
  "b" ++ String quote (fold_right (fun c acc => esc c ++ acc) (String quote EmptyString) cs).

(** [int(b)] for a bytes object [b], in base 10: surrounding whitespace, an
    optional sign, then digits. *)
Definition py_int (cs : list ascii) : result Z :=
  let t := strip_space cs in
  let '(sign, body) :=
    match t with
    | c :: rest =>
        if Ascii.eqb c "+"%char then (1, rest)
        else if Ascii.eqb c "-"%char then (-1, rest) else (1, t)
    | [] => (1, t)
    end in
  match int_digits body 0 false false with
  | Some v => Ok (sign * v)
  | None => Raise (ValueError ("invalid literal for int() with base 10: " ++ bytes_repr cs))
  end.

(** [s[i:j]] for [i <= j]. *)
Definition py_slice (i j : nat) (cs : list ascii) : list ascii :=
  firstn (j - i) (skipn i cs).

(** [s[i:i + 1] == c]. *)
Definition byte_at_is (i : nat) (c : ascii) (cs : list ascii) : bool :=
  match nth_error cs i with
  | Some c' => Ascii.eqb c' c
  | None => false
  end.

(** The proleptic Gregorian date of a day count from 1970-01-01, the
    inverse of [days_from_civil]. *)
Definition civil_from_days (days : Z) : Z * Z * Z :=
  let z := days + 719468 in
  let era := z / 146097 in
  let doe := z - era * 146097 in
  let yoe := (doe - doe / 1460 + doe / 36524 - doe / 146096) / 365 in
  let doy := doe - (365 * yoe + yoe / 4 - yoe / 100) in
  let mp := (5 * doy + 2) / 153 in
  let d := doy - (153 * mp + 2) / 5 + 1 in
  let m := if mp <? 10 then mp + 3 else mp - 9 in
  let y := yoe + era * 400 in
  (if m <=? 2 then y + 1 else y, m, d).

(** ISO weekday (Monday is 1) of a day count; 1970-01-01 was a Thursday. *)
Definition isoweekday (days : Z) : Z := (days + 3) mod 7 + 1.

Definition MINYEAR : Z := 1.
Definition MAXYEAR : Z := 9999.

(** The day counts of [date.min] and [date.max], and the microseconds of
    [datetime.min] and [datetime.max]. *)
Definition date_min_days : Z := days_from_civil MINYEAR 1 1.
Definition date_max_days : Z := days_from_civil MAXYEAR 12 31.
Definition datetime_min_us : Z := date_min_days * 86400000000.
Definition datetime_max_us : Z := date_max_days * 86400000000 + 86399999999.

(** [date(year, month, day)] with CPython's checks (messages of Python 3.9
    to 3.12), as a day count. *)
Definition py_date (year month day : Z) : result Z :=
  if (year <? MINYEAR) || (MAXYEAR <? year)
  then Raise (ValueError ("year " ++ z_to_string year ++ " is out of range"))
  else if (month <? 1) || (12 <? month) then Raise (ValueError "month must be in 1..12")
  else if (day <? 1) || (days_in_month year month <? day)
  then Raise (ValueError "day is out of range for month")
  else Ok (days_from_civil year month day).

(** [d + timedelta(days=n)] for a date [d]. *)
Definition date_add_days (days n : Z) : result Z :=
  let r := days + n in
  if (date_min_days <=? r) && (r <=? date_max_days) then Ok r
  else Raise (OverflowError "date value out of range").

(** [datetime(year, month, day, hour, minute, second, microsecond)] with
    CPython's checks: the wall-clock time in microseconds. *)
Definition py_datetime (year month day hour minute second microsecond : Z) : result Z :=
  days <- py_date year month day ;;
  if (hour <? 0) || (23 <? hour) then Raise (ValueError "hour must be in 0..23")
  else if (minute <? 0) || (59 <? minute) then Raise (ValueError "minute must be in 0..59")
  else if (second <? 0) || (59 <? second) then Raise (ValueError "second must be in 0..59")
  else if (microsecond <? 0) || (999999 <? microsecond)
  then Raise (ValueError "microsecond must be in 0..999999")
  else Ok ((days * 86400 + hour * 3600 + minute * 60 + second) * 1000000 + microsecond).

(** [t + timedelta(days=n)] for a datetime [t] (microseconds). *)
Definition datetime_add_days (t n : Z) : result Z :=
  let r := t + n * 86400000000 in
  if (datetime_min_us <=? r) && (r <=? datetime_max_us) then Ok r
  else Raise (OverflowError "date value out of range").

(** dateutil's [isoparser] ([sep=None]), on the bytes of the string. *)
Definition DATE_SEP : ascii := "-".
Definition TIME_SEP : ascii := ":".

(** [isoparser._calculate_weekdate]: the day count of ISO week [week], day
    [day] of [year]. *)
Definition calculate_weekdate (year week day : Z) : result Z :=
  if negb ((0 <? week) && (week <? 54))
  then Raise (ValueError ("Invalid week: " ++ z_to_string week))
  else if negb ((0 <? day) && (day <? 8))
  then Raise (ValueError ("Invalid weekday: " ++ z_to_string day))
  else
    jan_4 <- py_date year 1 4 ;;
    week_1 <- date_add_days jan_4 (- (isoweekday jan_4 - 1)) ;;
    date_add_days week_1 ((week - 1) * 7 + (day - 1)).

(** [isoparser._parse_isodate_common]: [YYYY], [YYYY-MM], [YYYYMMDD] and
    [YYYY-MM-DD]; the components [(year, month, day)], not yet range-checked,
    and the position after the date. *)
Definition parse_isodate_common (s : list ascii) : result ((Z * Z * Z) * nat) :=
  let len_str := length s in
  if Nat.ltb len_str 4 then Raise (ValueError "ISO string too short") else
  year <- py_int (py_slice 0 4 s) ;;
  if Nat.leb len_str 4 then Ok ((year, 1, 1), 4%nat) else
  let has_sep := byte_at_is 4 DATE_SEP s in
  let pos := (if has_sep then 5 else 4)%nat in
  if Nat.ltb (len_str - pos) 2 then Raise (ValueError "Invalid common month") else
  month <- py_int (py_slice pos (pos + 2) s) ;;
  let pos := (pos + 2)%nat in
  if Nat.leb len_str pos then
    (if has_sep then Ok ((year, month, 1), pos)
     else Raise (ValueError "Invalid ISO format"))
  else
  pos <- (if has_sep then
            if byte_at_is pos DATE_SEP s then Ok (S pos)
            else Raise (ValueError "Invalid separator in ISO string")
          else Ok pos) ;;
  if Nat.ltb (len_str - pos) 2 then Raise (ValueError "Invalid common day") else
  day <- py_int (py_slice pos (pos + 2) s) ;;
  Ok ((year, month, day), (pos + 2)%nat).

(** [isoparser._parse_isodate_uncommon]: ISO week dates [YYYY-Www-D],
    [YYYYWwwD] (the day optional) and ordinal dates [YYYY-DDD], [YYYYDDD]. *)
Definition parse_isodate_uncommon (s : list ascii) : result ((Z * Z * Z) * nat) :=
  let len_str := length s in
  if Nat.ltb len_str 4 then Raise (ValueError "ISO string too short") else
  year <- py_int (py_slice 0 4 s) ;;
  let has_sep := byte_at_is 4 DATE_SEP s in
  let pos := (if has_sep then 5 else 4)%nat in
  if byte_at_is pos "W"%char s then
    let pos := S pos in
    weekno <- py_int (py_slice pos (pos + 2) s) ;;
    let pos := (pos + 2)%nat in
    ' (dayno, pos) <-
      (if Nat.ltb pos len_str then
         if negb (Bool.eqb (byte_at_is pos DATE_SEP s) has_sep)
         then Raise (ValueError "Inconsistent use of dash separator")
         else
           let pos := if has_sep then S pos else pos in
           dayno <- py_int (py_slice pos (S pos) s) ;;
           Ok (dayno, S pos)
       else Ok (1, pos)) ;;
    base_date <- calculate_weekdate year weekno dayno ;;
    Ok (civil_from_days base_date, pos)
  else
    if Nat.ltb (len_str - pos) 3 then Raise (ValueError "Invalid ordinal day") else
    ordinal_day <- py_int (py_slice pos (pos + 3) s) ;;
    let pos := (pos + 3)%nat in
    if (ordinal_day <? 1) || (365 + (if is_leap year then 1 else 0) <? ordinal_day)
    then Raise (ValueError ("Invalid ordinal day " ++ z_to_string ordinal_day
                            ++ " for year " ++ z_to_string year))
    else
      jan_1 <- py_date year 1 1 ;;
      base_date <- date_add_days jan_1 (ordinal_day - 1) ;;
      Ok (civil_from_days base_date, pos).

(** [isoparser._parse_isodate]: the common forms, and on a [ValueError]
    the uncommon ones. *)
Definition parse_isodate (s : list ascii) : result ((Z * Z * Z) * nat) :=
  match parse_isodate_common s with
  | Raise (ValueError _) => parse_isodate_uncommon s
  | r => r
  end.

(** [isoparser._parse_tzstr]: the UTC offset in seconds ([tz.UTC] is 0). *)
Definition parse_tzstr (tzstr : list ascii) : result Z :=
  if (match tzstr with
      | [c] => Ascii.eqb c "Z"%char || Ascii.eqb c "z"%char
      | _ => false
      end) then Ok 0
  else
  let n := length tzstr in
  if negb (Nat.eqb n 3 || Nat.eqb n 5 || Nat.eqb n 6)
  then Raise (ValueError "Time zone offset must be 1, 3, 5 or 6 characters")
  else
    mult <- (if byte_at_is 0 "-"%char tzstr then Ok (-1)
             else if byte_at_is 0 "+"%char tzstr then Ok 1
             else Raise (ValueError "Time zone offset requires sign")) ;;
    hours <- py_int (py_slice 1 3 tzstr) ;;
    minutes <- (if Nat.eqb n 3 then Ok 0
                else py_int (skipn (if byte_at_is 3 TIME_SEP tzstr then 4 else 3) tzstr)) ;;
    if (hours =? 0) && (minutes =? 0) then Ok 0
    else if 59 <? minutes then Raise (ValueError "Invalid minutes in time zone offset")
    else if 23 <? hours then Raise (ValueError "Invalid hours in time zone offset")
    else Ok (mult * (hours * 60 + minutes) * 60).

(** The digits of [_FRACTION_REGEX = [.,]([0-9]+)] matched at the start. *)
Fixpoint take_digits (cs : list ascii) : list ascii :=
  match cs with
  | c :: rest => match digit_val c with Some _ => c :: take_digits rest | None => [] end
  | [] => []
  end.

Definition fraction_match (cs : list ascii) : option (list ascii) :=
  match cs with
  | c :: rest =>
      if Ascii.eqb c "."%char || Ascii.eqb c ","%char then
        match take_digits rest with [] => None | ds => Some ds end
      else None
  | [] => None
  end.

(** [components[comp] = v] on [hour, minute, second, microsecond]. *)
Definition set_component (comp : nat) (v : Z) (c : Z * Z * Z * Z) : Z * Z * Z * Z :=
  let '(h, mi, sec, us) := c in
  match comp with
  | O => (v, mi, sec, us)
  | S O => (h, v, sec, us)
  | S (S O) => (h, mi, v, us)
  | _ => (h, mi, sec, v)
  end.

(** The loop [while pos < len_str and comp < 5] of
    [isoparser._parse_isotime]: [comp] is the counter after its increment,
    and the fuel the passes left (six at most). The result: the final
    position, the components and the offset in seconds of a time zone. *)
Fixpoint parse_isotime_loop (fuel : nat) (timestr : list ascii) (pos comp : nat)
  (has_sep : bool) (components : Z * Z * Z * Z) (tz : option Z)
  : result (nat * (Z * Z * Z * Z) * option Z) :=
  match fuel with
  | O => Ok (pos, components, tz)
  | S fuel' =>
      if negb (Nat.ltb pos (length timestr)) then Ok (pos, components, tz) else
      if existsb (fun c => byte_at_is pos c timestr)
           ["-"%char; "+"%char; "Z"%char; "z"%char] then
        offset <- parse_tzstr (skipn pos timestr) ;;
        Ok (length timestr, components, Some offset)
      else
      ' (pos, has_sep) <-
        (if Nat.eqb comp 1 && byte_at_is pos TIME_SEP timestr then Ok (S pos, true)
         else if Nat.eqb comp 2 && has_sep then
           if byte_at_is pos TIME_SEP timestr then Ok (S pos, has_sep)
           else Raise (ValueError "Inconsistent use of colon separator")
         else Ok (pos, has_sep)) ;;
      if Nat.ltb comp 3 then
        v <- py_int (py_slice pos (pos + 2) timestr) ;;
        parse_isotime_loop fuel' timestr (pos + 2) (S comp) has_sep
          (set_component comp v components) tz
      else if Nat.eqb comp 3 then
        match fraction_match (skipn pos timestr) with
        | None => parse_isotime_loop fuel' timestr pos (S comp) has_sep components tz
        | Some ds =>
            let us_str := firstn 6 ds in
            us <- py_int us_str ;;
            parse_isotime_loop fuel' timestr (pos + S (length ds)) (S comp) has_sep
              (set_component 3 (us * 10 ^ (6 - Z.of_nat (length us_str))) components) tz
        end
      else parse_isotime_loop fuel' timestr pos (S comp) has_sep components tz
  end.

(** [isoparser._parse_isotime]: [(hour, minute, second, microsecond)] and
    the offset in seconds of a time zone, if any. *)
Definition parse_isotime (timestr : list ascii) : result ((Z * Z * Z * Z) * option Z) :=
  if Nat.ltb (length timestr) 2 then Raise (ValueError "ISO time too short") else
  ' (pos, components, tz) <- parse_isotime_loop 6 timestr 0 0 false (0, 0, 0, 0) None ;;
  if Nat.ltb pos (length timestr) then Raise (ValueError "Unused components in ISO string")
  else
    let '(h, mi, sec, us) := components in
    if (h =? 24) && negb ((mi =? 0) && (sec =? 0) && (us =? 0))
    then Raise (ValueError "Hour may only be 24 at 24:00:00.000")
    else Ok (components, tz).

(** [dateutil.parser.isoparse] (dateutil 2.8 and 2.9): a non-ASCII string
    is refused; the date, then the time after any one separator byte; hour
    24 is midnight of the next day. *)
Definition isoparse (dt_str : string) : result parsed_datetime :=
  let s := list_ascii_of_string dt_str in
  if existsb (fun c => Nat.leb 128 (nat_of_ascii c)) s
  then Raise (ValueError "ISO-8601 strings should contain only ASCII characters") else
  ' (date_components, pos) <- parse_isodate s ;;
  let '(year, month, day) := date_components in
  if Nat.ltb pos (length s) then
    ' (time_components, tz) <- parse_isotime (skipn (S pos) s) ;;
    let '(hour, minute, second, microsecond) := time_components in
    let offset := option_map (fun sec => sec * 1000000) tz in
    if hour =? 24 then
      t <- py_datetime year month day 0 minute second microsecond ;;
      t <- datetime_add_days t 1 ;;
      Ok {| p_local := t; p_offset := offset |}
    else
      t <- py_datetime year month day hour minute second microsecond ;;
      Ok {| p_local := t; p_offset := offset |}
  else
    t <- py_datetime year month day 0 0 0 0 ;;
    Ok {| p_local := t; p_offset := None |}.

(** The UTC instant of a parsed datetime, in microseconds: the wall-clock
    time less the offset; a naive datetime counts as UTC. *)
Definition to_utc (p : parsed_datetime) : Z :=
  match p_offset p with
  | None => p_local p
  | Some off => p_local p - off
  end.

(** [t.replace(tzinfo=timezone.utc)] for a naive [t], else
    [t.astimezone(timezone.utc)], which raises [OverflowError] when the UTC
    instant falls outside [datetime.min .. datetime.max]. *)
Definition astimezone_utc (p : parsed_datetime) : result Z :=
  match p_offset p with
  | None => Ok (p_local p)
  | Some off =>
      let u := p_local p - off in
      if (datetime_min_us <=? u) && (u <=? datetime_max_us) then Ok u
      else Raise (OverflowError "date value out of range")
  end.

(** One item of the list comprehension of [get_closest_utc_index]. *)
Definition utc_time_of (t : string) : result Z :=
  p <- isoparse t ;; astimezone_utc p.

(** [astimezone_utc] keeps the instant [to_utc p]: [p] is naive, or its UTC
    instant lies in [datetime.min .. datetime.max]. *)
Definition utc_in_range (p : parsed_datetime) : Prop :=
  p_offset p = None \/ datetime_min_us <= to_utc p <= datetime_max_us.

Fixpoint map_result {A B} (f : A -> result B) (l : list A) : result (list B) :=
  match l with
  | [] => Ok []
  | x :: rest => y <- f x ;; ys <- map_result f rest ;; Ok (y :: ys)
  end.

(** One step of [min(range(n), key=key)]: an item replaces the current
    minimum only when its key is strictly smaller. *)
Definition min_step (key : nat -> Z) (best i : nat) : nat :=
  if key i <? key best then i else best.

Definition py_min_range (n : nat) (key : nat -> Z) : result nat :=
  match n with
  | O => Raise (ValueError "min() arg is an empty sequence")
  | S m => Ok (fold_left (min_step key) (seq 1 m) O)
  end.

(** [current_time] is [datetime.now(timezone.utc)], in UTC microseconds. *)
Definition get_closest_utc_index (current_time : Z) (hourly_times : list string)
  : result nat :=
  parsed_times <- map_result utc_time_of hourly_times ;;
  py_min_range (length parsed_times)
    (fun i => Z.abs (nth i parsed_times 0 - current_time)).

(* ------------------------------------------------------------------ *)
(** ** MCP content items and the tool handler interface *)

Inductive content : Type :=
| TextContent (text : string)
| ImageContent (data mimeType : string)
| EmbeddedResource (uri : string).

(** [ToolHandler]: a name and [run_tool]. *)
Record tool_handler : Type := {
  name : string;
  run_tool : args_t -> result (list content)
}.

(** [args[k]]. *)
Definition arg_get (args : args_t) (k : string) : result json :=
  match obj_lookup k args with
  | Some v => Ok v
  | None => Raise (KeyError ("'" ++ k ++ "'"))
  end.

(** [args.get(k, default)]. *)
Definition arg_get_default (args : args_t) (k : string) (default : json) : json :=
  match obj_lookup k args with
  | Some v => v
  | None => default
  end.

(** [d[k] = v] on a value that should be a dict. *)
Definition setitem_str (d : json) (k : string) (v : json) : result json :=
  match d with
  | JObj kvs =>
      if dict_mem k kvs
      then Ok (JObj (map (fun '(k', v') => if String.eqb k k' then (k', v) else (k', v')) kvs))
      else Ok (JObj (kvs ++ [(k, v)])%list)
  | _ => Raise (TypeError ("'" ++ type_name d ++ "' object does not support item assignment"))
  end.

(** [s.lower()] on the ASCII letters. *)
Definition ascii_lower (c : ascii) : ascii :=
  let n := N_of_ascii c in
  if (65 <=? n)%N && (n <=? 90)%N then ascii_of_N (n + 32) else c.

Fixpoint py_lower (s : string) : string :=
  match s with
  | EmptyString => EmptyString
  | String c rest => String (ascii_lower c) (py_lower rest)
  end.

(** [s.endswith(suffix)]. *)
Definition py_endswith (suffix s : string) : bool :=
  let n := String.length s in
  let m := String.length suffix in
  Nat.leb m n && String.eqb (substring (n - m) m s) suffix.

(** A [ZoneInfo]: the UTC offset (seconds) at a UTC instant (microseconds),
    and at a wall-clock time (microseconds, [fold=0]) as [replace(tzinfo=...)]
    uses it; the DST offset and the abbreviation at a UTC instant. *)
Record zone : Type := {
  utcoffset_at : Z -> Z;
  utcoffset_local : Z -> Z;
  dst_at : Z -> option Z;
  tzname_at : Z -> string
}.

(** [ZoneInfo("UTC")]. *)
Definition utc_zone : zone := {|
  utcoffset_at := fun _ => 0;
  utcoffset_local := fun _ => 0;
  dst_at := fun _ => Some 0;
  tzname_at := fun _ => "UTC"
|}.

(** A time-zone database with two zones, America/New_York at standard time. *)
Definition new_york_standard : zone := {|
  utcoffset_at := fun _ => -18000;
  utcoffset_local := fun _ => -18000;
  dst_at := fun _ => Some 0;
  tzname_at := fun _ => "EST"
|}.

Definition example_zoneinfo (key : string) : option zone :=
  if String.eqb key "UTC" then Some utc_zone
  else if String.eqb key "America/New_York" then Some new_york_standard
  else None.

(** The default of [nth] on parsed datetimes: the naive epoch. *)
Definition epoch_naive : parsed_datetime := {| p_local := 0; p_offset := None |}.

(* ------------------------------------------------------------------ *)
(** ** The registry and [call_tool] (src/server_origin.py) *)

(** The [tool_handlers] dict, in insertion order; a later binding of a name
    replaces the earlier one, as [obj_lookup] returns the last binding. *)
Definition registry := list (string * tool_handler).

(** [add_tool_handler]: [tool_handlers[tool_handler.name] = tool_handler]. *)
Definition add_tool_handler (reg : registry) (h : tool_handler) : registry :=
  (reg ++ [(name h, h)])%list.

(** [get_tool_handler]: [tool_handlers.get(name)]. *)
Definition get_tool_handler (reg : registry) (tool_name : string) : option tool_handler :=
  obj_lookup tool_name reg.

(** [call_tool]: the whole body sits in one [try] whose [except Exception]
    returns the error as a text item. The result is [Raise] only if the
    exception escaped [call_tool]. *)
Definition call_tool (reg : registry) (tool_name : string) (arguments : json)
  : result (list content) :=
  let body :=
    match arguments with
    | JObj args =>
        match get_tool_handler reg tool_name with
        | None => Raise (ValueError ("Unknown tool: " ++ tool_name))
        | Some h => run_tool h args
        end
    | _ => Raise (RuntimeError "Arguments must be a dictionary")
    end in
  match body with
  | Ok r => Ok r
  | Raise e => Ok [TextContent ("Error executing tool '" ++ tool_name ++ "': " ++ exn_str e)]
  end.

(* ------------------------------------------------------------------ *)
(** ** More Python operations on JSON values *)

(** [d[k] = v] on a dict: a new key goes last, an existing key keeps its place. *)
Fixpoint dict_set {A} (kvs : list (string * A)) (k : string) (v : A) : list (string * A) :=
  match kvs with
  | [] => [(k, v)]
  | (k', v') :: rest => if String.eqb k k' then (k', v) :: rest else (k', v') :: dict_set rest k v
  end.

(** The dict [json.loads] builds from the pairs of a JSON object: each key
    once, at its first position, with its last value. *)
Definition py_dict_items {A} (kvs : list (string * A)) : list (string * A) :=
  fold_left (fun acc '(k, v) => dict_set acc k v) kvs [].

(** [tool_handlers.values()], the handlers [list_tools] describes: each
    registered name once, at the place of its first registration, with the
    handler registered last under it. *)
Definition tool_handlers_values (reg : registry) : list tool_handler :=
  map snd (py_dict_items reg).

(** [v[i]] for an index [i >= 0]; the keys of a dict from JSON are strings,
    so an integer key is never one of them. *)
Definition getitem_index (v : json) (i : nat) : result json :=
  match v with
  | JArr l =>
      match nth_error l i with
      | Some x => Ok x
      | None => Raise (IndexError "list index out of range")
      end
  | JObj _ => Raise (KeyError (z_to_string (Z.of_nat i)))
  | JStr s =>
      match String.get i s with
      | Some c => Ok (JStr (String c EmptyString))
      | None => Raise (IndexError "string index out of range")
      end
  | _ => Raise (TypeError ("'" ++ type_name v ++ "' object is not subscriptable"))
  end.

(** [len(v)]. *)
Definition py_len (v : json) : result nat :=
  match v with
  | JArr l => Ok (length l)
  | JStr s => Ok (String.length s)
  | JObj kvs => Ok (length (py_dict_items kvs))
  | _ => Raise (TypeError ("object of type '" ++ type_name v ++ "' has no len()"))
  end.

(** The items of [for x in v]: a string gives its characters, a dict its keys. *)
Definition py_iter (v : json) : result (list json) :=
  match v with
  | JArr l => Ok l
  | JStr s => Ok (map (fun c => JStr (String c EmptyString)) (list_ascii_of_string s))
  | JObj kvs => Ok (map (fun '(k, _) => JStr k) (py_dict_items kvs))
  | _ => Raise (TypeError ("'" ++ type_name v ++ "' object is not iterable"))
  end.

(** [parser.isoparse(t)] on any JSON value [t]. A non-string first meets
    [len(t)] in dateutil, then [int(t[0:4])] when it has 4 items or more;
    slicing a dict raises [TypeError] (Python 3.11). *)
Definition isoparse_json (t : json) : result parsed_datetime :=
  match t with
  | JStr s => isoparse s
  | JArr l =>
      if Nat.ltb (length l) 4 then Raise (ValueError "ISO string too short")
      else Raise (TypeError
             "int() argument must be a string, a bytes-like object or a real number, not 'list'")
  | JObj kvs =>
      if Nat.ltb (length (py_dict_items kvs)) 4 then Raise (ValueError "ISO string too short")
      else Raise (TypeError "unhashable type: 'slice'")
  | _ => Raise (TypeError ("object of type '" ++ type_name t ++ "' has no len()"))
  end.

Definition utc_time_of_json (t : json) : result Z :=
  p <- isoparse_json t ;; astimezone_utc p.

(** [utils.get_closest_utc_index(hourly_times)] on the JSON value the
    services pass to it. *)
Definition get_closest_utc_index_json (current_time : Z) (hourly_times : json) : result nat :=
  ts <- py_iter hourly_times ;;
  parsed_times <- map_result utc_time_of_json ts ;;
  py_min_range (length parsed_times)
    (fun i => Z.abs (nth i parsed_times 0 - current_time)).

(** [utils.weather_descriptions.get(code, "Unknown weather condition")] for a
    JSON value [code]: an integral number (and a boolean, equal to 0 or 1)
    is looked up, another number or a string or [None] is absent, and a list
    or a dict is unhashable. *)
Definition weather_description_json (code : json) : result string :=
  match code with
  | JNum q =>
      if Z.eqb (Zpos (Qden (Qred q))) 1 then Ok (weather_description (Qnum (Qred q)))
      else Ok "Unknown weather condition"
  | JBool b => Ok (weather_description (if b then 1 else 0))
  | JNull | JStr _ => Ok "Unknown weather condition"
  | JArr _ | JObj _ => Raise (TypeError ("unhashable type: '" ++ type_name code ++ "'"))
  end.

(** ["sep".join(v)]. *)
Definition py_str_join (sep : string) (v : json) : result string :=
  match v with
  | JNull | JBool _ | JNum _ => Raise (TypeError "can only join an iterable")
  | _ =>
      xs <- py_iter v ;;
      strs <- map_result (fun '(i, x) =>
                match x with
                | JStr s => Ok s
                | _ => Raise (TypeError ("sequence item " ++ z_to_string (Z.of_nat i)
                                         ++ ": expected str instance, " ++ type_name x ++ " found"))
                end) (combine (seq 0 (length xs)) xs) ;;
      Ok (join sep strs)
  end.

(** A value of a dict literal built from the hourly series: [hourly[k][i]]
    itself, or the description of the weather code [hourly[k][i]]. *)
Inductive field_src : Type :=
| Series (k : string)
| Description (k : string).

Definition eval_field (hourly_at : string -> result json) (src : field_src) : result json :=
  match src with
  | Series k => hourly_at k
  | Description k =>
      code <- hourly_at k ;;
      s <- weather_description_json code ;;
      Ok (JStr s)
  end.

(** A dict literal: its values evaluated from left to right, the first
    exception propagating. *)
Definition eval_fields (hourly_at : string -> result json) (fields : list (string * field_src))
  : result (list (string * json)) :=
  map_result (fun '(out, src) => v <- eval_field hourly_at src ;; Ok (out, v)) fields.

(* ------------------------------------------------------------------ *)
(** ** Other banding helpers of the services *)

(** [x < y] on numbers. *)
Definition Qlt_bool (x y : Q) : bool := negb (Qle_bool y x).

Module AirQualityService.

(** AirQualityService._get_pm10_level (src/tools/air_quality_service.py) *)
Definition get_pm10_level (pm10 : Q) : string :=
  if Qle_bool pm10 54%Q then "Good"
  else if Qle_bool pm10 154%Q then "Moderate"
  else if Qle_bool pm10 254%Q then "Unhealthy for Sensitive Groups"
  else if Qle_bool pm10 354%Q then "Unhealthy"
  else if Qle_bool pm10 424%Q then "Very Unhealthy"
  else "Hazardous".

(** AirQualityService._get_health_advice (src/tools/air_quality_service.py) *)
Definition get_health_advice (pm25 : Q) : string :=
  if Qle_bool pm25 12%Q then "Air quality is good. Safe for outdoor activities."
  else if Qle_bool pm25 35%Q then
    "Air quality is acceptable. Sensitive individuals should consider reducing prolonged outdoor exertion."
  else if Qle_bool pm25 55%Q then
    "Sensitive groups (children, elderly, people with respiratory conditions) should limit outdoor activities."
  else if Qle_bool pm25 150%Q then
    "Everyone should reduce outdoor activities. Sensitive groups should avoid outdoor activities."
  else if Qle_bool pm25 250%Q then
    "Everyone should avoid outdoor activities. Sensitive groups should remain indoors."
  else "Health alert: Everyone should avoid all outdoor activities and remain indoors.".

Definition BASE_AIR_QUALITY_URL : string :=
  "https://air-quality-api.open-meteo.com/v1/air-quality".

(** [hourly_vars] when the caller passes [None]. *)
Definition default_hourly_vars : json :=
  JArr (map JStr ["pm10"; "pm2_5"; "ozone"; "nitrogen_dioxide"; "carbon_monoxide"]).

(** AirQualityService.get_air_quality (src/tools/air_quality_service.py);
    [f"{x}"] of a coordinate is [py_str x]. *)
Definition get_air_quality (http_get : string -> http_response) (py_str : json -> string)
  (latitude longitude hourly_vars : json) : result json :=
  let hourly_vars := match hourly_vars with JNull => default_hourly_vars | v => v end in
  hourly_str <- py_str_join "," hourly_vars ;;
  let url := BASE_AIR_QUALITY_URL ++ "?latitude=" ++ py_str latitude
             ++ "&longitude=" ++ py_str longitude
             ++ "&hourly=" ++ hourly_str ++ "&timezone=GMT" in
  match http_get url with
  | RequestError m =>
      Raise (ValueError ("Network error while fetching air quality data: " ++ m))
  | Response status_code body =>
      match (if negb (Z.eqb status_code 200)
             then Raise (ValueError ("Air Quality API returned status " ++ z_to_string status_code))
             else response_json body) with
      | Raise (KeyError m) | Raise (IndexError m) =>
          Raise (ValueError ("Invalid response format from air quality API: " ++ m))
      | r => r
      end
  end.

(** [hourly.items()]. *)
Definition py_items (v : json) : result (list (string * json)) :=
  match v with
  | JObj kvs => Ok (py_dict_items kvs)
  | _ => Raise (AttributeError ("'" ++ type_name v ++ "' object has no attribute 'items'"))
  end.

(** AirQualityService.get_current_air_quality_index
    (src/tools/air_quality_service.py); [current_time] is the instant
    [utils.get_closest_utc_index] reads from the clock. *)
Definition get_current_air_quality_index (current_time : Z) (aq_data : json) : result json :=
  times <- (hourly <- getitem_str aq_data "hourly" ;; getitem_str hourly "time") ;;
  current_index <- get_closest_utc_index_json current_time times ;;
  time <- (hourly <- getitem_str aq_data "hourly" ;;
           times <- getitem_str hourly "time" ;;
           getitem_index times current_index) ;;
  let current_aq := [("time", time)] in
  hourly <- getitem_str aq_data "hourly" ;;
  items <- py_items hourly ;;
  Ok (JObj (fold_left (fun current_aq '(key, values) =>
              match values with
              | JArr l =>
                  if negb (String.eqb key "time") && Nat.ltb current_index (length l)
                  then dict_set current_aq key (nth current_index l JNull)
                  else current_aq
              | _ => current_aq
              end) items current_aq)).

End AirQualityService.

Module WeatherService.

(** WeatherService._get_uv_warning (src/tools/weather_service.py) *)
Definition get_uv_warning (uv_index : Q) : string :=
  if Qlt_bool uv_index 3%Q then "Low"
  else if Qlt_bool uv_index 6%Q then "Moderate"
  else if Qlt_bool uv_index 8%Q then "High"
  else if Qlt_bool uv_index 11%Q then "Very High"
  else "Extreme".

Definition BASE_WEATHER_URL : string := "https://api.open-meteo.com/v1/forecast".

(** The [hourly] parameter of both weather requests. *)
Definition hourly_query : string :=
  "temperature_2m,relative_humidity_2m,dew_point_2m,weather_code,"
  ++ "wind_speed_10m,wind_direction_10m,wind_gusts_10m,"
  ++ "precipitation,rain,snowfall,precipitation_probability,"
  ++ "pressure_msl,cloud_cover,uv_index,apparent_temperature,visibility".

(** The [url] of [get_current_weather]. *)
Definition current_weather_url (py_str : json -> string) (latitude longitude : json) : string :=
  BASE_WEATHER_URL ++ "?latitude=" ++ py_str latitude ++ "&longitude=" ++ py_str longitude
  ++ "&hourly=" ++ hourly_query ++ "&timezone=GMT&forecast_days=1".

(** The [url] of [get_weather_by_date_range]. *)
Definition weather_range_url (py_str : json -> string) (latitude longitude start_date end_date : json)
  : string :=
  BASE_WEATHER_URL ++ "?latitude=" ++ py_str latitude ++ "&longitude=" ++ py_str longitude
  ++ "&hourly=" ++ hourly_query ++ "&timezone=GMT&start_date=" ++ py_str start_date
  ++ "&end_date=" ++ py_str end_date.

(** The [current_weather] dict literal of [get_current_weather], after its
    first three entries ["city"], ["latitude"] and ["longitude"]. *)
Definition current_weather_fields : list (string * field_src) :=
  [("time", Series "time");
   ("temperature_c", Series "temperature_2m");
   ("relative_humidity_percent", Series "relative_humidity_2m");
   ("dew_point_c", Series "dew_point_2m");
   ("weather_code", Series "weather_code");
   ("weather_description", Description "weather_code");
   ("wind_speed_kmh", Series "wind_speed_10m");
   ("wind_direction_degrees", Series "wind_direction_10m");
   ("wind_gusts_kmh", Series "wind_gusts_10m");
   ("precipitation_mm", Series "precipitation");
   ("rain_mm", Series "rain");
   ("snowfall_cm", Series "snowfall");
   ("precipitation_probability_percent", Series "precipitation_probability");
   ("pressure_hpa", Series "pressure_msl");
   ("cloud_cover_percent", Series "cloud_cover");
   ("uv_index", Series "uv_index");
   ("apparent_temperature_c", Series "apparent_temperature");
   ("visibility_m", Series "visibility")].

(** The dict literal appended to [weather_data] by [get_weather_by_date_range]. *)
Definition range_weather_fields : list (string * field_src) :=
  [("time", Series "time");
   ("temperature_c", Series "temperature_2m");
   ("humidity_percent", Series "relative_humidity_2m");
   ("dew_point_c", Series "dew_point_2m");
   ("weather_code", Series "weather_code");
   ("weather_description", Description "weather_code");
   ("wind_speed_kmh", Series "wind_speed_10m");
   ("wind_direction_degrees", Series "wind_direction_10m");
   ("wind_gusts_kmh", Series "wind_gusts_10m");
   ("precipitation_mm", Series "precipitation");
   ("rain_mm", Series "rain");
   ("snowfall_cm", Series "snowfall");
   ("precipitation_probability_percent", Series "precipitation_probability");
   ("pressure_hpa", Series "pressure_msl");
   ("cloud_cover_percent", Series "cloud_cover");
   ("uv_index", Series "uv_index");
   ("apparent_temperature_c", Series "apparent_temperature");
   ("visibility_m", Series "visibility")].

(** [except (KeyError, IndexError) as e: raise ValueError(...)] of both
    weather requests. *)
Definition invalid_weather_format {A} (r : result A) : result A :=
  match r with
  | Raise (KeyError m) | Raise (IndexError m) =>
      Raise (ValueError ("Invalid response format from weather API: " ++ m))
  | r => r
  end.

(** The part of [get_current_weather] after [client.get(url)] returned. *)
Definition current_weather_from_response (current_time : Z) (city latitude longitude : json)
  (status_code : Z) (body : option json) : result json :=
  if negb (Z.eqb status_code 200)
  then Raise (ValueError ("Weather API returned status " ++ z_to_string status_code))
  else
    weather_data <- response_json body ;;
    times <- (hourly <- getitem_str weather_data "hourly" ;; getitem_str hourly "time") ;;
    current_index <- get_closest_utc_index_json current_time times ;;
    fields <- eval_fields (fun k => hourly <- getitem_str weather_data "hourly" ;;
                                    series <- getitem_str hourly k ;;
                                    getitem_index series current_index)
                          current_weather_fields ;;
    Ok (JObj ([("city", city); ("latitude", latitude); ("longitude", longitude)] ++ fields)).

(** WeatherService.get_current_weather (src/tools/weather_service.py);
    [current_time] is the instant [utils.get_closest_utc_index] reads from
    the clock and [py_str] is [str], as used by the f-strings. *)
Definition get_current_weather (http_get : string -> http_response) (current_time : Z)
  (py_str : json -> string) (city : json) : result json :=
  invalid_weather_format (
    coords <- get_coordinates http_get (py_str city) ;;
    let '(latitude, longitude) := coords in
    match http_get (current_weather_url py_str latitude longitude) with
    | RequestError m =>
        Raise (ValueError ("Network error while fetching weather for " ++ py_str city ++ ": " ++ m))
    | Response status_code body =>
        current_weather_from_response current_time city latitude longitude status_code body
    end).

(** The part of [get_weather_by_date_range] after [client.get(url)] returned. *)
Definition weather_range_from_response (city latitude longitude start_date end_date : json)
  (status_code : Z) (body : option json) : result json :=
  if negb (Z.eqb status_code 200)
  then Raise (ValueError ("Weather API returned status " ++ z_to_string status_code))
  else
    data <- response_json body ;;
    hourly <- getitem_str data "hourly" ;;
    times <- getitem_str hourly "time" ;;
    data_length <- py_len times ;;
    weather_data <-
      map_result (fun i =>
        fields <- eval_fields (fun k => series <- getitem_str hourly k ;; getitem_index series i)
                              range_weather_fields ;;
        Ok (JObj fields)) (seq 0 data_length) ;;
    Ok (JObj [("city", city); ("latitude", latitude); ("longitude", longitude);
              ("start_date", start_date); ("end_date", end_date);
              ("weather_data", JArr weather_data)]).

(** WeatherService.get_weather_by_date_range (src/tools/weather_service.py). *)
Definition get_weather_by_date_range (http_get : string -> http_response)
  (py_str : json -> string) (city start_date end_date : json) : result json :=
  invalid_weather_format (
    coords <- get_coordinates http_get (py_str city) ;;
    let '(latitude, longitude) := coords in
    match http_get (weather_range_url py_str latitude longitude start_date end_date) with
    | RequestError m =>
        Raise (ValueError ("Network error while fetching weather for " ++ py_str city ++ ": " ++ m))
    | Response status_code body =>
        weather_range_from_response city latitude longitude start_date end_date status_code body
    end).

End WeatherService.

(** The position of a label in a scale, [length scale] for a label not in it. *)
Fixpoint rank_in (scale : list string) (label : string) : nat :=
  match scale with
  | [] => O
  | s :: rest => if String.eqb s label then O else S (rank_in rest label)
  end.

(** The scale of the air-quality levels, from the best to the worst. *)
Definition aq_levels : list string :=
  ["Good"; "Moderate"; "Unhealthy for Sensitive Groups"; "Unhealthy";
   "Very Unhealthy"; "Hazardous"].

(** The scale of the UV warnings, from the weakest to the strongest. *)
Definition uv_levels : list string := ["Low"; "Moderate"; "High"; "Very High"; "Extreme"].

(** The instants of a series are strictly increasing. *)
Fixpoint strictly_ascending (l : list Z) : bool :=
  match l with
  | x :: ((y :: _) as rest) => (x <? y) && strictly_ascending rest
  | _ => true
  end.

(** Consecutive instants of a series are at most [g] apart. *)
Fixpoint gaps_at_most (g : Z) (l : list Z) : bool :=
  match l with
  | x :: ((y :: _) as rest) => (Z.abs (y - x) <=? g) && gaps_at_most g rest
  | _ => true
  end.

(** The hourly series a dict literal of the weather service reads. *)
Definition field_series (src : field_src) : string :=
  match src with Series k | Description k => k end.

(** Every series the literal reads is a list of at least [n] items. *)
Definition series_ready (fields : list (string * field_src)) (n : nat)
  (hourly : list (string * json)) : bool :=
  forallb (fun '(_, src) =>
             match obj_lookup (field_series src) hourly with
             | Some (JArr l) => Nat.leb n (length l)
             | _ => false
             end) fields.

(** No weather code of the series is a list or a dict. *)
Definition codes_hashable (hourly : list (string * json)) : bool :=
  match obj_lookup "weather_code" hourly with
  | Some (JArr l) => forallb (fun c => match c with JArr _ | JObj _ => false | _ => true end) l
  | _ => false
  end.

(** The value a field takes at index [i] of the series. *)
Definition field_value (hourly : list (string * json)) (i : nat) (src : field_src) : json :=
  let item := match obj_lookup (field_series src) hourly with
              | Some (JArr l) => nth i l JNull
              | _ => JNull
              end in
  match src with
  | Series _ => item
  | Description _ =>
      match weather_description_json item with Ok s => JStr s | Raise _ => JNull end
  end.

(** The value [current_aq[key]] is given after the loop over [hourly.items()]. *)
Definition aq_reading (i : nat) (hourly : list (string * json)) (key : string) : option json :=
  match obj_lookup key hourly with
  | Some (JArr l) =>
      if negb (String.eqb key "time") && Nat.ltb i (length l) then Some (nth i l JNull) else None
  | _ => None
  end.

(* ------------------------------------------------------------------ *)
(** ** Sample responses of the Open-Meteo APIs *)

(** Three hourly timestamps, and what [isoparse] reads from them. *)
Definition example_hourly_times : list string :=
  ["2024-01-01T00:00:00Z"; "2024-01-01T01:00:00Z"; "2024-01-01T02:00:00Z"].

Definition example_parsed_times : list parsed_datetime :=
  [{| p_local := 1704067200000000; p_offset := Some 0 |};
   {| p_local := 1704070800000000; p_offset := Some 0 |};
   {| p_local := 1704074400000000; p_offset := Some 0 |}].

(** The ["hourly"] dict of a weather response: every series of
    [WeatherService.hourly_query] with three values. *)
Definition example_weather_hourly : list (string * json) :=
  ("time", JArr (map JStr example_hourly_times))
  :: map (fun k => (k, JArr [JNum (1 # 1); JNum (2 # 1); JNum (61 # 1)]))
         ["temperature_2m"; "relative_humidity_2m"; "dew_point_2m"; "weather_code";
          "wind_speed_10m"; "wind_direction_10m"; "wind_gusts_10m"; "precipitation";
          "rain"; "snowfall"; "precipitation_probability"; "pressure_msl";
          "cloud_cover"; "uv_index"; "apparent_temperature"; "visibility"].

(** The ["hourly"] dict of an air-quality response. *)
Definition example_aq_hourly : list (string * json) :=
  [("time", JArr (map JStr example_hourly_times));
   ("pm10", JArr [JNum (10 # 1); JNum (20 # 1); JNum (30 # 1)]);
   ("pm2_5", JArr [JNum (5 # 1)]);
   ("ozone", JNum (7 # 1))].

(** A server that answers every weather request with [example_weather_hourly]
    and every geocoding request with one place at (1, 2). *)
Definition example_http_get (url : string) : http_response :=
  if String.prefix WeatherService.BASE_WEATHER_URL url
  then Response 200 (Some (JObj [("hourly", JObj example_weather_hourly)]))
  else Response 200 (Some (JObj [("results", JArr [JObj [("latitude", JNum (1 # 1));
                                                        ("longitude", JNum (2 # 1))]])])).

(* ------------------------------------------------------------------ *)
(** ** The eight tool handlers (src/tools/tools_*.py) *)

Section Handlers.

(** The collaborators of the handlers: the HTTP client, the clock, the
    time-zone database, JSON serialisation and the services' methods whose
    bodies the handlers only call. *)
Variable http_get : string -> http_response.
Variable now : Z.
Variable today tomorrow : string.
Variable zoneinfo : string -> option zone.
Variable json_dumps : json -> string.
Variable py_str : json -> string.
Variable isoformat_seconds : Z -> Z -> string.
Variable get_current_weather : json -> result json.
Variable get_weather_by_date_range : json -> json -> json -> result json.
Variable format_current_weather_response : json -> result string.
Variable format_weather_range_response : json -> result string.
Variable get_air_quality : json -> json -> json -> result json.
Variable get_current_air_quality_index : json -> result json.
Variable format_air_quality_comprehensive : json -> result string.
(** [datetime.fromisoformat]: the forms it accepts depend on the Python
    version (3.11 widened them), so it is a collaborator too; it returns a
    naive or an aware datetime, or raises. *)
Variable fromisoformat : string -> result parsed_datetime.

(** [utils.get_zoneinfo]: any failure of [ZoneInfo(name)] becomes an [McpError]. *)
Definition get_zoneinfo (timezone_name : json) : result zone :=
  match timezone_name with
  | JStr s =>
      match zoneinfo s with
      | Some z => Ok z
      | None => Raise (McpError ("Invalid timezone: 'No time zone found with key " ++ s ++ "'"))
      end
  | v => Raise (McpError ("Invalid timezone: expected str, got " ++ type_name v))
  end.

(** [except ValueError: "Error: ..."; except Exception: "Unexpected error occurred: ..."]. *)
Definition catch_service_errors (body : result (list content)) : list content :=
  match body with
  | Ok r => r
  | Raise (ValueError m) => [TextContent ("Error: " ++ m)]
  | Raise e => [TextContent ("Unexpected error occurred: " ++ exn_str e)]
  end.

(** The same two handlers of the [*_details] tools, which dump [{"error": ...}]. *)
Definition catch_service_errors_json (body : result (list content)) : list content :=
  match body with
  | Ok r => r
  | Raise (ValueError m) => [TextContent (json_dumps (JObj [("error", JStr m)]))]
  | Raise e =>
      [TextContent (json_dumps (JObj [("error", JStr ("Unexpected error occurred: " ++ exn_str e))]))]
  end.

(** [except Exception as e: f"{prefix}{e}"] of the time tools. *)
Definition catch_all (prefix : string) (body : result (list content)) : list content :=
  match body with
  | Ok r => r
  | Raise e => [TextContent (prefix ++ exn_str e)]
  end.

(** GetCurrentWeatherToolHandler.run_tool *)
Definition run_get_current_weather (args : args_t) : result (list content) :=
  Ok (catch_service_errors (
    _ <- validate_required_args args ["city"] ;;
    city <- arg_get args "city" ;;
    weather_data <- get_current_weather city ;;
    formatted_response <- format_current_weather_response weather_data ;;
    Ok [TextContent formatted_response])).

(** GetWeatherByDateRangeToolHandler.run_tool *)
Definition run_get_weather_by_date_range (args : args_t) : result (list content) :=
  Ok (catch_service_errors (
    _ <- validate_required_args args ["city"; "start_date"; "end_date"] ;;
    city <- arg_get args "city" ;;
    start_date <- arg_get args "start_date" ;;
    end_date <- arg_get args "end_date" ;;
    weather_data <- get_weather_by_date_range city start_date end_date ;;
    formatted_response <- format_weather_range_response weather_data ;;
    Ok [TextContent formatted_response])).

(** GetWeatherDetailsToolHandler.run_tool *)
Definition run_get_weather_details (args : args_t) : result (list content) :=
  Ok (catch_service_errors_json (
    _ <- validate_required_args args ["city"] ;;
    city <- arg_get args "city" ;;
    let include_forecast := arg_get_default args "include_forecast" (JBool false) in
    weather_data <- get_current_weather city ;;
    weather_data <-
      (if truthy include_forecast then
         forecast_data <- get_weather_by_date_range city (JStr today) (JStr tomorrow) ;;
         forecast <- getitem_str forecast_data "weather_data" ;;
         setitem_str weather_data "forecast" forecast
       else Ok weather_data) ;;
    Ok [TextContent (json_dumps weather_data)])).

(** GetCurrentDateTimeToolHandler.run_tool *)
Definition run_get_current_datetime (args : args_t) : result (list content) :=
  Ok (catch_all "Error getting current time: " (
    _ <- validate_required_args args ["timezone_name"] ;;
    timezone_name <- arg_get args "timezone_name" ;;
    tz <- get_zoneinfo timezone_name ;;
    let off := utcoffset_at tz now in
    let time_result :=
      JObj [("timezone", timezone_name);
            ("datetime", JStr (isoformat_seconds (now + off * 1000000) off))] in
    Ok [TextContent (json_dumps time_result)])).

(** GetTimeZoneInfoToolHandler.run_tool *)
Definition run_get_timezone_info (args : args_t) : result (list content) :=
  Ok (catch_all "Error getting timezone info: " (
    _ <- validate_required_args args ["timezone_name"] ;;
    timezone_name <- arg_get args "timezone_name" ;;
    tz <- get_zoneinfo timezone_name ;;
    let off := utcoffset_at tz now in
    let offset_hours := Qmake off 3600 in
    let is_dst := match dst_at tz now with Some d => Z.gtb d 0 | None => false end in
    let timezone_info :=
      JObj [("timezone_name", timezone_name);
            ("current_local_time", JStr (isoformat_seconds (now + off * 1000000) off));
            ("current_utc_time", JStr (isoformat_seconds now 0));
            ("utc_offset_hours", JNum offset_hours);
            ("is_dst", JBool is_dst);
            ("timezone_abbreviation", JStr (tzname_at tz now))] in
    Ok [TextContent (json_dumps timezone_info)])).

(** The conversion of [ConvertTimeToolHandler.run_tool]: the source instant
    (UTC microseconds) and its offset (seconds).
    [replace(tzinfo=from_timezone)] drops the parsed offset and takes the
    zone's offset at the wall-clock time. *)
Definition convert_source_time (datetime_str : json) (from_timezone : zone)
  : result (Z * Z) :=
  match datetime_str with
  | JStr s =>
      if String.eqb (py_lower s) "now" then
        Ok (now, utcoffset_at from_timezone now)
      else
        let s' := if py_endswith "Z" s
                  then substring 0 (String.length s - 1) s else s in
        naive_time <- fromisoformat s' ;;
        let off := utcoffset_local from_timezone (p_local naive_time) in
        Ok (p_local naive_time - off * 1000000, off)
  | v => Raise (AttributeError ("'" ++ type_name v ++ "' object has no attribute 'lower'"))
  end.

(** The payload [conversion_result] built by [ConvertTimeToolHandler.run_tool]. *)
Definition conversion_result (from_name to_name : json) (src : Z * Z) (to_timezone : zone)
  : json :=
  let '(instant, src_off) := src in
  let tgt_off := utcoffset_at to_timezone instant in
  JObj [("original_datetime", JStr (isoformat_seconds (instant + src_off * 1000000) src_off));
        ("original_timezone", from_name);
        ("converted_datetime", JStr (isoformat_seconds (instant + tgt_off * 1000000) tgt_off));
        ("converted_timezone", to_name);
        ("time_difference_hours", JNum (Qmake (tgt_off - src_off) 3600))].

(** ConvertTimeToolHandler.run_tool *)
Definition run_convert_time (args : args_t) : result (list content) :=
  Ok (catch_all "Error converting time: " (
    _ <- validate_required_args args ["datetime_str"; "from_timezone"; "to_timezone"] ;;
    datetime_str <- arg_get args "datetime_str" ;;
    from_timezone_name <- arg_get args "from_timezone" ;;
    to_timezone_name <- arg_get args "to_timezone" ;;
    from_timezone <- get_zoneinfo from_timezone_name ;;
    to_timezone <- get_zoneinfo to_timezone_name ;;
    src <- convert_source_time datetime_str from_timezone ;;
    Ok [TextContent (json_dumps
          (conversion_result from_timezone_name to_timezone_name src to_timezone))])).

Definition default_aq_variables : json :=
  JArr (map JStr ["pm10"; "pm2_5"; "ozone"; "nitrogen_dioxide"; "carbon_monoxide"]).

Definition default_aq_details_variables : json :=
  JArr (map JStr ["pm10"; "pm2_5"; "ozone"; "nitrogen_dioxide"; "carbon_monoxide";
                  "sulphur_dioxide"; "ammonia"; "dust"; "aerosol_optical_depth"]).

(** The part shared by the two air-quality handlers: geocoding, the
    air-quality request and the current values, assembled in [response_data]. *)
Definition air_quality_response_data (args : args_t) (default_variables : json)
  : result json :=
  _ <- validate_required_args args ["city"] ;;
  city <- arg_get args "city" ;;
  let variables := arg_get_default args "variables" default_variables in
  coords <- get_coordinates http_get (py_str city) ;;
  let '(latitude, longitude) := coords in
  aq_data <- get_air_quality latitude longitude variables ;;
  current_aq <- get_current_air_quality_index aq_data ;;
  Ok (JObj [("city", city); ("latitude", latitude); ("longitude", longitude);
            ("current_air_quality", current_aq); ("full_data", aq_data)]).

(** GetAirQualityToolHandler.run_tool *)
Definition run_get_air_quality (args : args_t) : result (list content) :=
  Ok (catch_service_errors (
    response_data <- air_quality_response_data args default_aq_variables ;;
    formatted_response <- format_air_quality_comprehensive response_data ;;
    Ok [TextContent formatted_response])).

(** GetAirQualityDetailsToolHandler.run_tool *)
Definition run_get_air_quality_details (args : args_t) : result (list content) :=
  Ok (catch_service_errors_json (
    response_data <- air_quality_response_data args default_aq_details_variables ;;
    Ok [TextContent (json_dumps response_data)])).

(** [register_all_tools] (src/server_origin.py): the registry dict after the
    eight [add_tool_handler] calls, in registration order. *)
Definition all_tool_handlers : list tool_handler :=
  [ {| name := "get_current_weather"; run_tool := run_get_current_weather |};
    {| name := "get_weather_byDateTimeRange"; run_tool := run_get_weather_by_date_range |};
    {| name := "get_weather_details"; run_tool := run_get_weather_details |};
    {| name := "get_current_datetime"; run_tool := run_get_current_datetime |};
    {| name := "get_timezone_info"; run_tool := run_get_timezone_info |};
    {| name := "convert_time"; run_tool := run_convert_time |};
    {| name := "get_air_quality"; run_tool := run_get_air_quality |};
    {| name := "get_air_quality_details"; run_tool := run_get_air_quality_details |} ].

Definition register_all_tools : list (string * tool_handler) :=
  fold_left (fun reg h => add_tool_handler reg h) all_tool_handlers [].

(* ================================================================== *)
(** * Properties of the handlers and of the dispatcher *)

(** Each handler's [try] block returns one text item, and each of its
    [except] clauses does too. *)
Lemma body_one_text_catch_service_errors (body : result (list content)) :
  (exists s, body = Ok [TextContent s]) \/ (exists e, body = Raise e) ->
  exists s, catch_service_errors body = [TextContent s].
Proof.
  intros [[s ->] | [e ->]]; [now exists s|].
  destruct e; simpl; eexists; reflexivity.
Qed.

Lemma body_one_text_catch_service_errors_json (body : result (list content)) :
  (exists s, body = Ok [TextContent s]) \/ (exists e, body = Raise e) ->
  exists s, catch_service_errors_json body = [TextContent s].
Proof.
  intros [[s ->] | [e ->]]; [now exists s|].
  destruct e; simpl; eexists; reflexivity.
Qed.

Lemma body_one_text_catch_all (prefix : string) (body : result (list content)) :
  (exists s, body = Ok [TextContent s]) \/ (exists e, body = Raise e) ->
  exists s, catch_all prefix body = [TextContent s].
Proof.
  intros [[s ->] | [e ->]]; [now exists s|].
  simpl; eexists; reflexivity.
Qed.

(** A computation in [result] that ends in [Ok [TextContent _]] either
    returns one text item or raises. *)
Lemma bind_one_text {A} (m : result A) (k : A -> result (list content)) :
  (forall a, (exists s, k a = Ok [TextContent s]) \/ (exists e, k a = Raise e)) ->
  (exists s, bind m k = Ok [TextContent s]) \/ (exists e, bind m k = Raise e).
Proof.
  intros Hk. destruct m as [a|e]; simpl; [apply Hk|right; now exists e].
Qed.

Lemma ret_one_text (s : string) :
  (exists s', (Ok [TextContent s] : result (list content)) = Ok [TextContent s'])
  \/ (exists e, (Ok [TextContent s] : result (list content)) = Raise e).
Proof. left; now exists s. Qed.

(** A dict lookup returns one of the dict's values. *)
Lemma obj_lookup_fold_in {A} (k : string) (kvs : list (string * A)) (acc : option A) (v : A) :
  fold_left (fun acc '(k', v) => if String.eqb k k' then Some v else acc) kvs acc = Some v ->
  acc = Some v \/ In v (map snd kvs).
Proof.
  revert acc. induction kvs as [|[k' v'] rest IH]; intros acc H; simpl in *; [now left|].
  destruct (IH _ H) as [Hacc|Hin]; [|now right; right].
  destruct (String.eqb k k'); [inversion Hacc; subst; now right; left|now left].
Qed.

Lemma obj_lookup_in {A} (k : string) (kvs : list (string * A)) (v : A) :
  obj_lookup k kvs = Some v -> In v (map snd kvs).
Proof.
  unfold obj_lookup. intro H. destruct (obj_lookup_fold_in _ _ _ _ H); [discriminate|assumption].
Qed.

Lemma register_all_tools_eq :
  register_all_tools = map (fun h => (name h, h)) all_tool_handlers.
Proof. reflexivity. Qed.

(** C4: every registered handler's [run_tool] returns exactly one content
    item, a text item, whatever the arguments and whatever its collaborators
    return or raise; and [call_tool] over the registry of [register_all_tools]
    (its success path and its error path) likewise returns one text item. *)
Theorem run_tool_returns_one_text_item :
  Forall (fun h => forall args, exists s, run_tool h args = Ok [TextContent s])
    all_tool_handlers
  /\ (forall tool_name arguments,
        exists s, call_tool register_all_tools tool_name arguments = Ok [TextContent s]).
Proof.
  assert (Hh : Forall (fun h => forall args, exists s, run_tool h args = Ok [TextContent s])
                 all_tool_handlers).
  { repeat constructor; intro args; cbn [run_tool];
      [ unfold run_get_current_weather
      | unfold run_get_weather_by_date_range
      | unfold run_get_weather_details
      | unfold run_get_current_datetime
      | unfold run_get_timezone_info
      | unfold run_convert_time
      | unfold run_get_air_quality
      | unfold run_get_air_quality_details ];
    match goal with
    | |- exists s, Ok (?f ?body) = _ =>
        let H := fresh in
        assert (H : exists s, f body = [TextContent s]);
        [ first [ apply body_one_text_catch_service_errors
                | apply body_one_text_catch_service_errors_json
                | apply body_one_text_catch_all ];
          repeat first [ apply ret_one_text
                       | apply bind_one_text; intro
                       | progress cbv zeta
                       | match goal with
                         | |- context [if ?c then _ else _] => destruct c
                         | |- context [let '(_, _) := ?p in _] => destruct p
                         end ]
        | destruct H as [s Hs]; exists s; now rewrite Hs ]
    end. }
  split; [exact Hh|].
  intros tool_name arguments. unfold call_tool.
  destruct arguments as [| | | | |args]; try (eexists; reflexivity).
  destruct (get_tool_handler register_all_tools tool_name) as [h|] eqn:Hget;
    [|eexists; reflexivity].
  apply obj_lookup_in in Hget. rewrite register_all_tools_eq, map_map in Hget.
  rewrite Forall_forall in Hh.
  assert (Hin : In h all_tool_handlers) by (rewrite <- map_id; exact Hget).
  destruct (Hh h Hin args) as [s ->]. now exists s.
Qed.

(** C8: [convert_time] with [datetime_str = "now"] and [from_timezone = "UTC"]
    (whose [ZoneInfo] has offset 0) and a destination zone the database
    knows: the payload's [time_difference_hours] is (destination offset minus
    source offset) / 3600 seconds, which is the destination's offset in
    hours, negative for a zone west of UTC. *)
Theorem convert_time_now_from_utc_difference (to_name : string) (z : zone)
  (Hutc : zoneinfo "UTC" = Some utc_zone) (Hto : zoneinfo to_name = Some z) :
  exists payload q,
    run_convert_time [("datetime_str", JStr "now"); ("from_timezone", JStr "UTC");
                      ("to_timezone", JStr to_name)]
      = Ok [TextContent (json_dumps payload)]
    /\ getitem_str payload "time_difference_hours" = Ok (JNum q)
    /\ q = Qmake (utcoffset_at z now - utcoffset_at utc_zone now) 3600
    /\ Qeq q (inject_Z (utcoffset_at z now) / inject_Z 3600)
    /\ (utcoffset_at z now < 0 -> Qlt q 0).
Proof.
  unfold run_convert_time, get_zoneinfo. simpl.
  rewrite Hutc, Hto. simpl.
  eexists; eexists; split; [reflexivity|].
  split; [reflexivity|]. split; [reflexivity|]. cbn [utcoffset_at utc_zone].
  split.
  - unfold Qeq, Qdiv, Qmult, Qinv, inject_Z. simpl. lia.
  - intro Hneg. unfold Qlt. simpl. lia.
Qed.

End Handlers.

(* ================================================================== *)
(** * Properties of [call_tool] *)

(** C1 (the claim as stated fails): an unknown tool name and a non-dict
    [arguments] value are not raised past [call_tool]; they come back as a
    text item. *)
Lemma call_tool_dispatch_errors_become_text :
  call_tool [] "no_such_tool" (JObj [])
    = Ok [TextContent "Error executing tool 'no_such_tool': Unknown tool: no_such_tool"]
  /\ call_tool [] "get_current_weather" (JArr [])
    = Ok [TextContent "Error executing tool 'get_current_weather': Arguments must be a dictionary"].
Proof. split; reflexivity. Qed.

(** C1 (amended): [call_tool] never raises. A non-dict [arguments], an
    unknown tool name and an exception of the handler's [run_tool] all come
    back as one text item ["Error executing tool '<name>': <error>"]; the
    handler's result is returned as it is otherwise. *)
Theorem call_tool_catches_every_error (reg : registry) (tool_name : string) (arguments : json) :
  (exists r, call_tool reg tool_name arguments = Ok r)
  /\ call_tool reg tool_name arguments =
     match arguments with
     | JObj args =>
         match get_tool_handler reg tool_name with
         | None =>
             Ok [TextContent ("Error executing tool '" ++ tool_name ++ "': Unknown tool: " ++ tool_name)]
         | Some h =>
             match run_tool h args with
             | Ok r => Ok r
             | Raise e =>
                 Ok [TextContent ("Error executing tool '" ++ tool_name ++ "': " ++ exn_str e)]
             end
         end
     | _ =>
         Ok [TextContent ("Error executing tool '" ++ tool_name ++ "': Arguments must be a dictionary")]
     end.
Proof.
  unfold call_tool.
  destruct arguments as [| | | | |args]; try (split; [eexists|]; reflexivity).
  destruct (get_tool_handler reg tool_name) as [h|]; [|split; [eexists|]; reflexivity].
  destruct (run_tool h args); split; try reflexivity; eexists; reflexivity.
Qed.

(** Witness: [convert_time] from UTC to New York at standard time. *)
Lemma convert_time_now_from_utc_difference_witness :
  example_zoneinfo "UTC" = Some utc_zone
  /\ example_zoneinfo "America/New_York" = Some new_york_standard
  /\ exists payload q,
    run_convert_time 1704073200000000 example_zoneinfo (fun _ => "") (fun _ _ => "") isoparse
      [("datetime_str", JStr "now"); ("from_timezone", JStr "UTC");
       ("to_timezone", JStr "America/New_York")]
      = Ok [TextContent ((fun _ : json => "") payload)]
    /\ getitem_str payload "time_difference_hours" = Ok (JNum q)
    /\ q = Qmake (utcoffset_at new_york_standard 1704073200000000
                  - utcoffset_at utc_zone 1704073200000000) 3600
    /\ Qeq q (inject_Z (utcoffset_at new_york_standard 1704073200000000) / inject_Z 3600)
    /\ (utcoffset_at new_york_standard 1704073200000000 < 0 -> Qlt q 0).
Proof.
  split; [reflexivity|]. split; [reflexivity|].
  exact (convert_time_now_from_utc_difference 1704073200000000 example_zoneinfo
           (fun _ => "") (fun _ _ => "") isoparse "America/New_York" new_york_standard
           eq_refl eq_refl).
Defined.

(* ================================================================== *)
(** * Required arguments *)

Lemma missing_fields_in (args : args_t) (required_fields : list string) (f : string) :
  In f (missing_fields args required_fields)
  <-> In f required_fields /\ dict_mem f args = false.
Proof.
  unfold missing_fields. rewrite filter_In. now rewrite negb_true_iff.
Qed.

(** C3: validation succeeds exactly when every required field is present;
    otherwise it raises one error whose message lists every missing required
    field, in the order of [required_fields]. *)
Theorem validate_required_args_names_all_missing (args : args_t) (required_fields : list string) :
  (validate_required_args args required_fields = Ok tt
   <-> forall f, In f required_fields -> dict_mem f args = true)
  /\ (missing_fields args required_fields <> [] ->
      validate_required_args args required_fields
        = Raise (RuntimeError ("Missing required arguments: "
                               ++ join ", " (missing_fields args required_fields))))
  /\ missing_fields args required_fields
     = filter (fun f => negb (dict_mem f args)) required_fields
  /\ (forall f, In f (missing_fields args required_fields)
                <-> In f required_fields /\ dict_mem f args = false).
Proof.
  split; [|split; [|split; [reflexivity|apply missing_fields_in]]].
  - unfold validate_required_args. split.
    + destruct (missing_fields args required_fields) as [|m ms] eqn:E; [|discriminate].
      intros _ f Hf. destruct (dict_mem f args) eqn:Hm; [reflexivity|].
      assert (Hin : In f (missing_fields args required_fields))
        by (apply missing_fields_in; auto).
      now rewrite E in Hin.
    + intro Hall.
      destruct (missing_fields args required_fields) as [|m ms] eqn:E; [reflexivity|].
      assert (Hin : In m (missing_fields args required_fields)) by (rewrite E; now left).
      apply missing_fields_in in Hin. destruct Hin as [Hin Hm].
      rewrite (Hall m Hin) in Hm. discriminate.
  - intro Hne. unfold validate_required_args.
    destruct (missing_fields args required_fields); [contradiction|reflexivity].
Qed.

(* ================================================================== *)
(** * PM2.5 banding *)

Ltac pm25_band :=
  unfold get_pm25_level;
  repeat match goal with
  | |- context [Qle_bool ?x ?c] =>
      first
        [ replace (Qle_bool x c) with true by (symmetry; apply Qle_bool_iff; lra)
        | replace (Qle_bool x c) with false
            by (symmetry; apply not_true_iff_false; rewrite Qle_bool_iff; lra) ]
  end; reflexivity.

(** C5: the six PM2.5 bands with their inclusive upper cutoffs, and the
    values 12.0, 12.1 and 250.1. *)
Theorem get_pm25_level_bands (x : Q) :
  (x <= 12 -> get_pm25_level x = "Good")%Q
  /\ (12 < x -> x <= 35 -> get_pm25_level x = "Moderate")%Q
  /\ (35 < x -> x <= 55 -> get_pm25_level x = "Unhealthy for Sensitive Groups")%Q
  /\ (55 < x -> x <= 150 -> get_pm25_level x = "Unhealthy")%Q
  /\ (150 < x -> x <= 250 -> get_pm25_level x = "Very Unhealthy")%Q
  /\ (250 < x -> get_pm25_level x = "Hazardous")%Q
  /\ get_pm25_level 12 = "Good"
  /\ get_pm25_level (121 # 10) = "Moderate"
  /\ get_pm25_level (2501 # 10) = "Hazardous".
Proof.
  repeat split; intros; pm25_band.
Qed.

(* ================================================================== *)
(** * Compass directions *)

Lemma py_round_floor (x : Q) : Z.div (Qnum x) (Zpos (Qden x)) = Qfloor x.
Proof. now destruct x. Qed.

(** [py_round] rounds to a nearest integer. *)
Lemma py_round_nearest (x : Q) :
  (Qabs (x - inject_Z (py_round x)) <= 1 # 2)%Q.
Proof.
  unfold py_round. cbv zeta. rewrite py_round_floor.
  pose proof (Qfloor_le x) as Hle. pose proof (Qlt_floor x) as Hlt.
  rewrite inject_Z_plus in Hlt. change (inject_Z 1) with 1%Q in Hlt.
  apply Qabs_Qle_condition.
  destruct (Qcompare (x - inject_Z (Qfloor x)) (1 # 2)) eqn:E.
  - apply Qeq_alt in E. destruct (Z.even (Qfloor x)).
    + split; lra.
    + rewrite inject_Z_plus. change (inject_Z 1) with 1%Q. split; lra.
  - apply Qlt_alt in E. split; lra.
  - apply Qgt_alt in E. rewrite inject_Z_plus. change (inject_Z 1) with 1%Q. split; lra.
Qed.

(** C6: the label is the entry at [round(degrees / 22.5) mod 16] of the
    16-entry table, always an entry of the table; the rounding is to a
    nearest integer; 0 gives "N", 90 gives "E" and 100 gives "E"
    ([round(100 / 22.5) = 4]). *)
Theorem degrees_to_compass_table (d : Q) :
  degrees_to_compass d
    = nth (Z.to_nat (Z.modulo (py_round (d / (45 # 2))) 16)) directions ""
  /\ 0 <= Z.modulo (py_round (d / (45 # 2))) 16 < 16
  /\ In (degrees_to_compass d) directions
  /\ (Qabs (d / (45 # 2) - inject_Z (py_round (d / (45 # 2)))) <= 1 # 2)%Q
  /\ degrees_to_compass 0 = "N"
  /\ degrees_to_compass 90 = "E"
  /\ py_round (100 / (45 # 2)) = 4
  /\ degrees_to_compass 100 = "E".
Proof.
  assert (Hb : 0 <= Z.modulo (py_round (d / (45 # 2))) 16 < 16)
    by (apply Z.mod_pos_bound; lia).
  split; [reflexivity|]. split; [exact Hb|]. split.
  - unfold degrees_to_compass. apply nth_In. simpl length. lia.
  - split; [apply py_round_nearest|]. repeat split; reflexivity.
Qed.

(* ================================================================== *)
(** * Weather-code descriptions *)

Lemma zdict_get_notin {A} (k : Z) (d : list (Z * A)) (default : A) :
  ~ In k (map fst d) -> zdict_get k d default = default.
Proof.
  induction d as [|[k' v] rest IH]; intro Hn; simpl in *; [reflexivity|].
  destruct (Z.eqb_spec k k'); [subst; exfalso; now apply Hn; left|].
  apply IH. intro Hin; apply Hn; now right.
Qed.

Lemma zdict_get_in {A} (k : Z) (v : A) (d : list (Z * A)) (default : A) :
  NoDup (map fst d) -> In (k, v) d -> zdict_get k d default = v.
Proof.
  induction d as [|[k' v'] rest IH]; intros Hnd Hin; simpl in *; [contradiction|].
  inversion Hnd as [|? ? Hnotin Hnd']; subst.
  destruct Hin as [Heq|Hin].
  - inversion Heq; subst. now rewrite Z.eqb_refl.
  - destruct (Z.eqb_spec k k'); [subst|now apply IH].
    exfalso; apply Hnotin. change k' with (fst (k', v)). now apply in_map.
Qed.

(** C10: the table has 28 distinct codes; a code of the table is described
    by its entry, any other code by "Unknown weather condition". *)
Theorem weather_description_table (code : Z) :
  length weather_descriptions = 28%nat
  /\ NoDup (map fst weather_descriptions)
  /\ (forall s, In (code, s) weather_descriptions -> weather_description code = s)
  /\ (~ In code (map fst weather_descriptions) ->
      weather_description code = "Unknown weather condition").
Proof.
  assert (Hnd : NoDup (map fst weather_descriptions)).
  { cbn [weather_descriptions map fst].
    repeat (constructor; [cbn [In]; intuition discriminate|]). constructor. }
  split; [reflexivity|]. split; [exact Hnd|]. split.
  - intros s Hin. now apply zdict_get_in.
  - apply zdict_get_notin.
Qed.

(* ================================================================== *)
(** * Closest-hour selection *)

(** The scan of [min(range(m + 1), key=key)] keeps an index whose key is
    minimal among [0..m], before which every key is strictly larger. *)
Lemma min_step_fold_spec (key : nat -> Z) (m : nat) :
  let b := fold_left (min_step key) (seq 1 m) O in
  (b <= m)%nat
  /\ (forall j, (j <= m)%nat -> key b <= key j)
  /\ (forall j, (j < b)%nat -> key b < key j).
Proof.
  induction m as [|m IH]; cbv zeta in *.
  - simpl. split; [lia|]. split; [intros j Hj; replace j with O by lia; lia|intros; lia].
  - rewrite seq_S, fold_left_app. simpl fold_left.
    destruct IH as (Hb & Hmin & Hfirst).
    set (b := fold_left (min_step key) (seq 1 m) O) in *.
    unfold min_step. replace (1 + m)%nat with (S m) by lia.
    destruct (Z.ltb_spec (key (S m)) (key b)) as [Hlt|Hge].
    + split; [lia|]. split.
      * intros j Hj. destruct (Nat.eq_dec j (S m)) as [->|Hne]; [lia|].
        specialize (Hmin j ltac:(lia)). lia.
      * intros j Hj. specialize (Hmin j ltac:(lia)). lia.
    + split; [lia|]. split; [|exact Hfirst].
      intros j Hj. destruct (Nat.eq_dec j (S m)) as [->|Hne]; [lia|].
      apply Hmin; lia.
Qed.

Lemma map_result_length {A B} (f : A -> result B) (l : list A) (l' : list B) :
  map_result f l = Ok l' -> length l' = length l.
Proof.
  revert l'. induction l as [|x rest IH]; intros l' H; simpl in H.
  - now inversion H.
  - destruct (f x); [|discriminate]. simpl in H.
    destruct (map_result f rest) as [ys|]; [|discriminate]. simpl in H.
    inversion H; subst. simpl. f_equal. now apply IH.
Qed.

Lemma nth_map_to_utc (i : nat) (ps : list parsed_datetime) :
  nth i (map to_utc ps) 0 = to_utc (nth i ps epoch_naive).
Proof.
  change (nth i (map to_utc ps) 0) with (nth i (map to_utc ps) (to_utc epoch_naive)).
  apply map_nth.
Qed.

Lemma astimezone_utc_in_range (p : parsed_datetime) :
  utc_in_range p -> astimezone_utc p = Ok (to_utc p).
Proof.
  unfold utc_in_range, astimezone_utc, to_utc.
  destruct (p_offset p) as [off|]; intros [H|H]; try discriminate; try reflexivity.
  destruct H as [H1 H2]. apply Z.leb_le in H1, H2. now rewrite H1, H2.
Qed.

Lemma astimezone_utc_ok_or_overflow (p : parsed_datetime) :
  astimezone_utc p = Ok (to_utc p)
  \/ astimezone_utc p = Raise (OverflowError "date value out of range").
Proof.
  unfold astimezone_utc, to_utc. destruct (p_offset p) as [off|]; [|now left].
  destruct (_ && _); [left|right]; reflexivity.
Qed.

Lemma astimezone_utc_out_of_range (p : parsed_datetime) :
  p_offset p <> None -> ~ (datetime_min_us <= to_utc p <= datetime_max_us) ->
  astimezone_utc p = Raise (OverflowError "date value out of range").
Proof.
  unfold astimezone_utc, to_utc. destruct (p_offset p) as [off|]; [|congruence].
  intros _ H.
  destruct (datetime_min_us <=? p_local p - off) eqn:E1; [|reflexivity].
  destruct (p_local p - off <=? datetime_max_us) eqn:E2; [|reflexivity].
  apply Z.leb_le in E1, E2. exfalso. now apply H.
Qed.

Lemma map_result_utc_time_of (l : list string) (ps : list parsed_datetime) :
  map_result isoparse l = Ok ps ->
  map_result utc_time_of l = map_result astimezone_utc ps.
Proof.
  revert ps. induction l as [|t rest IH]; intros ps H; cbn [map_result] in H |- *.
  - now inversion H.
  - destruct (isoparse t) as [p|e] eqn:Ep; [|discriminate]. cbn [bind] in H.
    destruct (map_result isoparse rest) as [ps'|e] eqn:Er; [|discriminate].
    cbn [bind] in H. inversion H; subst. cbn [map_result].
    unfold utc_time_of at 1. rewrite Ep. cbn [bind]. now rewrite (IH ps' eq_refl).
Qed.

Lemma map_result_astimezone_in_range (ps : list parsed_datetime) :
  Forall utc_in_range ps -> map_result astimezone_utc ps = Ok (map to_utc ps).
Proof.
  induction 1 as [|p ps Hp _ IH]; [reflexivity|]. cbn [map_result map].
  rewrite (astimezone_utc_in_range p Hp). cbn [bind]. now rewrite IH.
Qed.

Lemma map_result_astimezone_out_of_range (ps : list parsed_datetime) :
  Exists (fun p => p_offset p <> None
                   /\ ~ (datetime_min_us <= to_utc p <= datetime_max_us)) ps ->
  map_result astimezone_utc ps = Raise (OverflowError "date value out of range").
Proof.
  induction 1 as [p ps [Ho Hr]|p ps _ IH]; cbn [map_result].
  - now rewrite (astimezone_utc_out_of_range p Ho Hr).
  - destruct (astimezone_utc_ok_or_overflow p) as [E|E]; rewrite E; cbn [bind];
      [now rewrite IH|reflexivity].
Qed.

(** The selection in terms of the UTC instants of the parsed timestamps. *)
Lemma get_closest_utc_index_min (current_time : Z) (hourly_times : list string)
  (parsed_times : list parsed_datetime) :
  map_result isoparse hourly_times = Ok parsed_times ->
  Forall utc_in_range parsed_times ->
  (0 < length hourly_times)%nat ->
  let utc := map to_utc parsed_times in
  exists i,
    get_closest_utc_index current_time hourly_times = Ok i
    /\ (i < length utc)%nat
    /\ (forall j, (j < length utc)%nat ->
          Z.abs (nth i utc 0 - current_time) <= Z.abs (nth j utc 0 - current_time))
    /\ (forall j, (j < i)%nat ->
          Z.abs (nth i utc 0 - current_time) < Z.abs (nth j utc 0 - current_time)).
Proof.
  intros Hparse Hin Hne. cbv zeta.
  pose proof (map_result_length _ _ _ Hparse) as Hlen.
  unfold get_closest_utc_index.
  rewrite (map_result_utc_time_of _ _ Hparse), (map_result_astimezone_in_range _ Hin).
  cbn [bind]. rewrite length_map, Hlen.
  destruct (length hourly_times) as [|m] eqn:E; [lia|].
  simpl py_min_range.
  set (key := fun i => Z.abs (nth i (map to_utc parsed_times) 0 - current_time)).
  destruct (min_step_fold_spec key m) as (Hb & Hmin & Hfirst).
  exists (fold_left (min_step key) (seq 1 m) O).
  split; [reflexivity|]. split; [lia|]. split.
  - intros j Hj. exact (Hmin j ltac:(lia)).
  - intros j Hj. exact (Hfirst j Hj).
Qed.

(** C2 (amended): for a non-empty list of timestamps that [isoparse] reads,
    when every aware timestamp has its UTC instant within the years 1 to
    9999, the result is the index of a timestamp at minimal absolute
    distance from the current instant, the first such index (a naive
    timestamp counts as UTC, an aware one is shifted by its offset,
    [to_utc]); when some aware timestamp has its UTC instant outside that
    range, [astimezone] raises [OverflowError]. *)
Theorem get_closest_utc_index_argmin (current_time : Z) (hourly_times : list string)
  (parsed_times : list parsed_datetime)
  (Hparse : map_result isoparse hourly_times = Ok parsed_times)
  (Hne : (0 < length hourly_times)%nat) :
  (Forall utc_in_range parsed_times ->
   exists i,
     get_closest_utc_index current_time hourly_times = Ok i
     /\ (i < length hourly_times)%nat
     /\ (forall j, (j < length hourly_times)%nat ->
           Z.abs (to_utc (nth i parsed_times epoch_naive) - current_time)
           <= Z.abs (to_utc (nth j parsed_times epoch_naive) - current_time))
     /\ (forall j, (j < i)%nat ->
           Z.abs (to_utc (nth i parsed_times epoch_naive) - current_time)
           < Z.abs (to_utc (nth j parsed_times epoch_naive) - current_time)))
  /\ (Exists (fun p => p_offset p <> None
                       /\ ~ (datetime_min_us <= to_utc p <= datetime_max_us)) parsed_times ->
      get_closest_utc_index current_time hourly_times
      = Raise (OverflowError "date value out of range")).
Proof.
  pose proof (map_result_length _ _ _ Hparse) as Hlen. split.
  - intro Hin.
    destruct (get_closest_utc_index_min current_time hourly_times parsed_times Hparse Hin Hne)
      as (i & Hget & Hi & Hmin & Hfirst).
    rewrite length_map, Hlen in Hi, Hmin.
    exists i. split; [exact Hget|]. split; [exact Hi|]. split.
    + intros j Hj. specialize (Hmin j Hj). now rewrite !nth_map_to_utc in Hmin.
    + intros j Hj. specialize (Hfirst j Hj). now rewrite !nth_map_to_utc in Hfirst.
  - intro Hout. unfold get_closest_utc_index.
    rewrite (map_result_utc_time_of _ _ Hparse), (map_result_astimezone_out_of_range _ Hout).
    reflexivity.
Qed.

(** C2 (the claim as stated fails): at 2024-01-01T01:40Z, the one-item list
    [0001-01-01T00:30+01:00], whose UTC instant falls before the year 1,
    makes [astimezone] raise instead of giving an index. *)
Lemma get_closest_utc_index_overflow :
  get_closest_utc_index 1704073200000000 ["0001-01-01T00:30+01:00"]
  = Raise (OverflowError "date value out of range").
Proof. vm_compute. reflexivity. Qed.

Lemma example_parsed_times_in_range : Forall utc_in_range example_parsed_times.
Proof.
  unfold example_parsed_times.
  repeat (apply Forall_cons; [right; vm_compute; split; discriminate|]).
  apply Forall_nil.
Qed.

(** The hourly times of the spec's example at 01:40Z. *)
Lemma get_closest_utc_index_argmin_witness :
  map_result isoparse example_hourly_times = Ok example_parsed_times
  /\ (0 < length example_hourly_times)%nat
  /\ Forall utc_in_range example_parsed_times
  /\ exists i, get_closest_utc_index 1704073200000000 example_hourly_times = Ok i
       /\ (i < length example_hourly_times)%nat.
Proof.
  assert (Hp : map_result isoparse example_hourly_times = Ok example_parsed_times)
    by (vm_compute; reflexivity).
  assert (Hn : (0 < length example_hourly_times)%nat) by (simpl; lia).
  pose proof example_parsed_times_in_range as Hin.
  split; [exact Hp|]. split; [exact Hn|]. split; [exact Hin|].
  destruct (proj1 (get_closest_utc_index_argmin 1704073200000000 _ _ Hp Hn) Hin)
    as (i & Hget & Hi & _).
  exists i. split; assumption.
Defined.

(** C9 (the claim as stated fails): at 01:40Z the selection over 00:00Z,
    01:00Z and 02:00Z is not index 1. *)
Lemma get_closest_utc_index_example_not_one :
  exists i,
    get_closest_utc_index 1704073200000000
      ["2024-01-01T00:00:00Z"; "2024-01-01T01:00:00Z"; "2024-01-01T02:00:00Z"] = Ok i
    /\ i <> 1%nat.
Proof. exists 2%nat. split; [vm_compute; reflexivity|discriminate]. Qed.

(** C9 (amended): 2024-01-01T01:40:00Z is 1704073200000000 microseconds;
    the distances to the three timestamps are 100, 40 and 20 minutes, and the
    selection returns index 2. *)
Theorem get_closest_utc_index_example :
  isoparse "2024-01-01T01:40:00Z"
    = Ok {| p_local := 1704073200000000; p_offset := Some 0 |}
  /\ map (fun t => match isoparse t with
                   | Ok p => Z.abs (to_utc p - 1704073200000000)
                   | Raise _ => -1
                   end)
       ["2024-01-01T00:00:00Z"; "2024-01-01T01:00:00Z"; "2024-01-01T02:00:00Z"]
     = [100 * 60 * 1000000; 40 * 60 * 1000000; 20 * 60 * 1000000]
  /\ get_closest_utc_index 1704073200000000
       ["2024-01-01T00:00:00Z"; "2024-01-01T01:00:00Z"; "2024-01-01T02:00:00Z"] = Ok 2%nat.
Proof. split; [|split]; vm_compute; reflexivity. Qed.

(* ================================================================== *)
(** * Geocoding *)

Lemma obj_lookup_fold_none {A} (k : string) (kvs : list (string * A)) (acc : option A) :
  fold_left (fun acc '(k', v) => if String.eqb k k' then Some v else acc) kvs acc = None ->
  acc = None /\ dict_mem k kvs = false.
Proof.
  revert acc. induction kvs as [|[k' v'] rest IH]; intros acc H; simpl in *; [now split|].
  destruct (IH _ H) as [Hacc Hmem]. rewrite Hmem, orb_false_r.
  destruct (String.eqb k k'); [discriminate|now split].
Qed.

Lemma obj_lookup_none_mem {A} (k : string) (kvs : list (string * A)) :
  obj_lookup k kvs = None -> dict_mem k kvs = false.
Proof. intro H. now apply (obj_lookup_fold_none k kvs None). Qed.

Lemma obj_lookup_fold_some {A} (k : string) (kvs : list (string * A)) (acc : option A) (v : A) :
  fold_left (fun acc '(k', v) => if String.eqb k k' then Some v else acc) kvs acc = Some v ->
  acc = Some v \/ dict_mem k kvs = true.
Proof.
  revert acc. induction kvs as [|[k' v'] rest IH]; intros acc H; simpl in *; [now left|].
  destruct (IH _ H) as [Hacc|Hmem]; [|right; now rewrite Hmem, orb_true_r].
  destruct (String.eqb k k') eqn:E; [right; reflexivity|now left].
Qed.

Lemma obj_lookup_some_mem {A} (k : string) (kvs : list (string * A)) (v : A) :
  obj_lookup k kvs = Some v -> dict_mem k kvs = true.
Proof.
  intro H. destruct (obj_lookup_fold_some k kvs None v H); [discriminate|assumption].
Qed.

(** C7 (the claim as stated fails): a 200 response whose JSON body is
    [null] has no "results" key, yet [get_coordinates] raises a [TypeError]
    from ["results" in None], not the location-not-found [ValueError]. *)
Lemma get_coordinates_null_body :
  get_coordinates (fun _ => Response 200 (Some JNull)) "Atlantis"
    = Raise (TypeError "argument of type 'NoneType' is not iterable").
Proof. reflexivity. Qed.

(** C7 (amended): a status other than 200 raises ["Geocoding API returned
    status <code>"]. For a 200 response whose body is a JSON object: no
    "results" key, or an empty "results" array, raises ["No coordinates found
    for city: <city>"]; a non-empty "results" array whose first element is an
    object gives that object's (latitude, longitude), or raises ["Invalid
    response format from geocoding API: 'latitude'"] (resp. 'longitude') when
    the key is absent. All these errors are [ValueError]s. *)
Theorem get_coordinates_object_responses (http_get : string -> http_response) (city : string) :
  let url := BASE_GEO_URL ++ "?name=" ++ city in
  (forall status_code body,
     http_get url = Response status_code body -> status_code <> 200 ->
     get_coordinates http_get city
       = Raise (ValueError ("Geocoding API returned status " ++ z_to_string status_code)))
  /\ (forall kvs,
        http_get url = Response 200 (Some (JObj kvs)) ->
        obj_lookup "results" kvs = None ->
        get_coordinates http_get city
          = Raise (ValueError ("No coordinates found for city: " ++ city)))
  /\ (forall kvs,
        http_get url = Response 200 (Some (JObj kvs)) ->
        obj_lookup "results" kvs = Some (JArr []) ->
        get_coordinates http_get city
          = Raise (ValueError ("No coordinates found for city: " ++ city)))
  /\ (forall kvs first rest,
        http_get url = Response 200 (Some (JObj kvs)) ->
        obj_lookup "results" kvs = Some (JArr (JObj first :: rest)) ->
        get_coordinates http_get city
          = match obj_lookup "latitude" first, obj_lookup "longitude" first with
            | Some latitude, Some longitude => Ok (latitude, longitude)
            | None, _ =>
                Raise (ValueError "Invalid response format from geocoding API: 'latitude'")
            | Some _, None =>
                Raise (ValueError "Invalid response format from geocoding API: 'longitude'")
            end).
Proof.
  cbv zeta. unfold get_coordinates.
  split; [|split; [|split]].
  - intros status_code body Hget Hne. rewrite Hget. unfold get_coordinates_body.
    apply Z.eqb_neq in Hne. now rewrite Hne.
  - intros kvs Hget Hres. rewrite Hget. unfold get_coordinates_body. simpl.
    now rewrite (obj_lookup_none_mem _ _ Hres).
  - intros kvs Hget Hres. rewrite Hget. unfold get_coordinates_body. simpl.
    rewrite (obj_lookup_some_mem _ _ _ Hres). simpl. unfold getitem_str at 1.
    now rewrite Hres.
  - intros kvs first rest Hget Hres. rewrite Hget. unfold get_coordinates_body. simpl.
    rewrite (obj_lookup_some_mem _ _ _ Hres). simpl. unfold getitem_str at 1.
    rewrite Hres. simpl.
    destruct (obj_lookup "latitude" first), (obj_lookup "longitude" first); reflexivity.
Qed.

(* ================================================================== *)
(** * Air-quality and UV banding *)

(** Splits the goal on every comparison with a cutoff, keeping the
    comparison as a hypothesis in [Q]. *)
Ltac split_cutoffs :=
  repeat match goal with
  | |- context [Qle_bool ?x ?c] =>
      let E := fresh "E" in
      destruct (Qle_bool x c) eqn:E;
      [apply Qle_bool_iff in E | apply not_true_iff_false in E; rewrite Qle_bool_iff in E;
                                 apply Qnot_le_lt in E]
  end.

(** A higher PM2.5 concentration never gives a better level. *)
Theorem get_pm25_level_monotone (x y : Q) :
  (x <= y)%Q ->
  (rank_in aq_levels (get_pm25_level x) <= rank_in aq_levels (get_pm25_level y))%nat.
Proof.
  intro Hxy. unfold get_pm25_level, Qlt_bool. split_cutoffs; cbn; try lia; exfalso; lra.
Qed.

(** The six PM10 levels with their inclusive upper cutoffs 54, 154, 254,
    354 and 424; a higher concentration never gives a better level. *)
Theorem get_pm10_level_bands (x y : Q) :
  ((x <= 54 -> AirQualityService.get_pm10_level x = "Good")
   /\ (54 < x -> x <= 154 -> AirQualityService.get_pm10_level x = "Moderate")
   /\ (154 < x -> x <= 254 ->
       AirQualityService.get_pm10_level x = "Unhealthy for Sensitive Groups")
   /\ (254 < x -> x <= 354 -> AirQualityService.get_pm10_level x = "Unhealthy")
   /\ (354 < x -> x <= 424 -> AirQualityService.get_pm10_level x = "Very Unhealthy")
   /\ (424 < x -> AirQualityService.get_pm10_level x = "Hazardous"))%Q
  /\ ((x <= y)%Q ->
      (rank_in aq_levels (AirQualityService.get_pm10_level x)
       <= rank_in aq_levels (AirQualityService.get_pm10_level y))%nat).
Proof.
  unfold AirQualityService.get_pm10_level.
  repeat split; intros; split_cutoffs; cbn; try reflexivity; try lia; exfalso; lra.
Qed.

(** The health advice follows the PM2.5 level: two concentrations get the
    same advice exactly when they get the same level, so the advice has the
    same six bands with the same cutoffs. *)
Theorem get_health_advice_follows_pm25_level (x y : Q) :
  AirQualityService.get_health_advice x = AirQualityService.get_health_advice y
  <-> get_pm25_level x = get_pm25_level y.
Proof.
  unfold AirQualityService.get_health_advice, get_pm25_level.
  split_cutoffs; cbn; split; intro H; first [reflexivity | discriminate H | exfalso; lra].
Qed.

(** The UV warning bands ([< 3] Low, [< 6] Moderate, [< 8] High, [< 11]
    Very High, else Extreme); a higher index never gives a weaker warning,
    and above 3, the only index [format_current_weather_response] passes,
    the warning is never "Low". *)
Theorem get_uv_warning_bands (x y : Q) :
  ((x < 3 -> WeatherService.get_uv_warning x = "Low")
   /\ (3 <= x -> x < 6 -> WeatherService.get_uv_warning x = "Moderate")
   /\ (6 <= x -> x < 8 -> WeatherService.get_uv_warning x = "High")
   /\ (8 <= x -> x < 11 -> WeatherService.get_uv_warning x = "Very High")
   /\ (11 <= x -> WeatherService.get_uv_warning x = "Extreme"))%Q
  /\ ((x <= y)%Q ->
      (rank_in uv_levels (WeatherService.get_uv_warning x)
       <= rank_in uv_levels (WeatherService.get_uv_warning y))%nat)
  /\ ((3 < x)%Q -> WeatherService.get_uv_warning x <> "Low").
Proof.
  unfold WeatherService.get_uv_warning, Qlt_bool.
  repeat split; intros; split_cutoffs; cbn; try reflexivity; try lia; try discriminate;
    exfalso; lra.
Qed.

(* ================================================================== *)
(** * Rounding and compass sectors *)

(** [n] is [round(x)]: within 1/2 of [x], and even when [x] is half-way. *)
Definition round_spec (x : Q) (n : Z) : Prop :=
  (-(1 # 2) < x - inject_Z n < 1 # 2)%Q
  \/ ((x - inject_Z n == 1 # 2 \/ x - inject_Z n == -(1 # 2))%Q /\ Z.even n = true).

Lemma py_round_spec (x : Q) : round_spec x (py_round x).
Proof.
  unfold round_spec, py_round. cbv zeta. rewrite py_round_floor.
  pose proof (Qfloor_le x) as Hle. pose proof (Qlt_floor x) as Hlt.
  rewrite inject_Z_plus in Hlt. change (inject_Z 1) with 1%Q in Hlt.
  destruct (Qcompare (x - inject_Z (Qfloor x)) (1 # 2)) eqn:E.
  - apply Qeq_alt in E. destruct (Z.even (Qfloor x)) eqn:Hev.
    + right. split; [left; lra|exact Hev].
    + right. rewrite inject_Z_plus. change (inject_Z 1) with 1%Q.
      split; [right; lra|]. rewrite Z.even_add, Hev. reflexivity.
  - apply Qlt_alt in E. left. split; lra.
  - apply Qgt_alt in E. left. rewrite inject_Z_plus. change (inject_Z 1) with 1%Q. split; lra.
Qed.

Lemma round_spec_unique (x : Q) (n m : Z) : round_spec x n -> round_spec x m -> n = m.
Proof.
  unfold round_spec. intros Hn Hm.
  assert (Hd : (-1 <= inject_Z (n - m) <= 1)%Q).
  { unfold Z.sub. rewrite inject_Z_plus, inject_Z_opp.
    destruct Hn as [Hn|[[Hn|Hn] _]]; destruct Hm as [Hm|[[Hm|Hm] _]]; split; lra. }
  change (-1)%Q with (inject_Z (-1)) in Hd. change 1%Q with (inject_Z 1) in Hd.
  destruct Hd as [Hd1 Hd2]. rewrite <- Zle_Qle in Hd1, Hd2.
  assert (Hc : n = m \/ n = m + 1 \/ m = n + 1) by lia.
  destruct Hc as [Hc|[Hc|Hc]]; [exact Hc| |]; subst;
    rewrite inject_Z_plus in *; change (inject_Z 1) with 1%Q in *;
    rewrite Z.even_add in *; cbn [Z.even] in *;
    destruct Hn as [Hn|[[Hn|Hn] Hen]]; destruct Hm as [Hm|[[Hm|Hm] Hem]];
    try (exfalso; lra);
    [rewrite Hem in Hen | rewrite Hen in Hem]; discriminate.
Qed.

Lemma py_round_eq (x : Q) (n : Z) : round_spec x n -> py_round x = n.
Proof. intro H. exact (round_spec_unique x _ _ (py_round_spec x) H). Qed.

(** Wind directions repeat every full turn: [d] and [d + 360] get the same label. *)
Theorem degrees_to_compass_periodic (d : Q) :
  degrees_to_compass (d + 360) = degrees_to_compass d.
Proof.
  unfold degrees_to_compass.
  assert (Hq : ((d + 360) / (45 # 2) == d / (45 # 2) + inject_Z 16)%Q)
    by (unfold inject_Z; field).
  pose proof (py_round_spec (d / (45 # 2))) as Hs.
  assert (Hr : py_round ((d + 360) / (45 # 2)) = py_round (d / (45 # 2)) + 16).
  { apply py_round_eq. unfold round_spec in *.
    rewrite inject_Z_plus, Z.even_add. cbn [Z.even].
    destruct Hs as [Hs|[[Hs|Hs] He]]; [left; split; lra
                                     | right; split; [left; lra|now rewrite He]
                                     | right; split; [right; lra|now rewrite He]]. }
  rewrite Hr. f_equal. f_equal.
  rewrite <- Z.add_mod_idemp_r by lia. rewrite Z.mod_same by lia. now rewrite Z.add_0_r.
Qed.

(** Sector [k] is centred on [22.5 * k] degrees: a direction less than 11.25
    degrees away from that centre gets entry [k mod 16] of the table, and a
    direction exactly half-way between the centres of sectors [k] and [k + 1]
    gets the entry of the one with an even index (Python rounds halves to
    even), e.g. 11.25 gives "N" and 33.75 gives "NE". *)
Theorem degrees_to_compass_sectors (d : Q) (k : Z) :
  ((-(45 # 4) < d - inject_Z k * (45 # 2) < 45 # 4)%Q ->
   degrees_to_compass d = nth (Z.to_nat (k mod 16)) directions "")
  /\ ((d - inject_Z k * (45 # 2) == 45 # 4)%Q ->
      degrees_to_compass d
        = nth (Z.to_nat ((if Z.even k then k else k + 1) mod 16)) directions "")
  /\ degrees_to_compass (45 # 4) = "N"
  /\ degrees_to_compass (135 # 4) = "NE".
Proof.
  assert (Hq : forall d k, (d / (45 # 2) - inject_Z k == (d - inject_Z k * (45 # 2)) * (2 # 45))%Q)
    by (intros; field).
  split; [|split; [|split; reflexivity]].
  - intro H. unfold degrees_to_compass. do 3 f_equal. apply py_round_eq.
    left. rewrite Hq. split; lra.
  - intro H. unfold degrees_to_compass. do 3 f_equal. apply py_round_eq.
    destruct (Z.even k) eqn:Hev.
    + right. split; [left; rewrite Hq; lra|exact Hev].
    + right. split.
      * right. rewrite Hq, inject_Z_plus. change (inject_Z 1) with 1%Q. lra.
      * rewrite Z.even_add, Hev. reflexivity.
Qed.

(* ================================================================== *)
(** * Closest-hour selection on regular series *)

Lemma strictly_ascending_nth (l : list Z) (i j : nat) :
  strictly_ascending l = true -> (i < j < length l)%nat -> nth i l 0 < nth j l 0.
Proof.
  revert i j. induction l as [|x rest IH]; intros i j Hs Hij; simpl in Hij; [lia|].
  destruct rest as [|y rest']; [simpl in Hij; lia|].
  simpl in Hs. apply andb_true_iff in Hs. destruct Hs as [Hxy Hs]. apply Z.ltb_lt in Hxy.
  destruct i as [|i'], j as [|j']; try lia.
  - destruct j' as [|j'']; [simpl; lia|].
    specialize (IH O (S j'') Hs ltac:(simpl in *; lia)). simpl in *. lia.
  - specialize (IH i' j' Hs ltac:(lia)). simpl. exact IH.
Qed.

(** A point between the first and the last instant of a series whose gaps
    are at most [g] is within [g / 2] of one of them. *)
Lemma gaps_at_most_near (g t : Z) (l : list Z) :
  0 <= g -> gaps_at_most g l = true -> l <> [] ->
  nth 0 l 0 <= t <= last l 0 ->
  exists j, (j < length l)%nat /\ 2 * Z.abs (nth j l 0 - t) <= g.
Proof.
  intros Hg. induction l as [|x rest IH]; intros Hgaps Hne Ht; [contradiction|].
  destruct rest as [|y rest'].
  - clear IH. exists O. cbn [nth last length] in *. split; [lia|]. lia.
  - simpl in Hgaps. apply andb_true_iff in Hgaps. destruct Hgaps as [Hxy Hgaps].
    apply Z.leb_le in Hxy.
    destruct (Z.le_gt_cases t y) as [Hty|Hty].
    + clear IH. cbn [nth] in Ht. destruct (Z.le_gt_cases (2 * (t - x)) g).
      * exists O. cbn [nth length]. split; [lia|]. lia.
      * exists 1%nat. cbn [nth length]. split; [lia|]. lia.
    + destruct (IH Hgaps ltac:(discriminate)) as [j [Hj Hd]].
      { split; [cbn [nth]; lia|]. destruct Ht as [_ Ht]. exact Ht. }
      exists (S j). cbn [nth length] in *. split; [lia|exact Hd].
Qed.

(** On timestamps that [isoparse] reads, whose UTC instants stay within the
    years 1 to 9999 ([utc_in_range]) and strictly increase, a current time at
    or before the first instant selects index 0, and one at or after the last
    instant selects the last index. *)
Theorem get_closest_utc_index_clamps (current_time : Z) (hourly_times : list string)
  (parsed_times : list parsed_datetime)
  (Hparse : map_result isoparse hourly_times = Ok parsed_times)
  (Hrange : Forall utc_in_range parsed_times)
  (Hsorted : strictly_ascending (map to_utc parsed_times) = true)
  (Hne : (0 < length hourly_times)%nat) :
  (current_time <= to_utc (nth 0 parsed_times epoch_naive) ->
   get_closest_utc_index current_time hourly_times = Ok 0%nat)
  /\ (to_utc (nth (length hourly_times - 1) parsed_times epoch_naive) <= current_time ->
      get_closest_utc_index current_time hourly_times = Ok (length hourly_times - 1)%nat).
Proof.
  pose proof (map_result_length _ _ _ Hparse) as Hlen.
  destruct (get_closest_utc_index_min current_time hourly_times parsed_times Hparse Hrange Hne)
    as (i & Hget & Hi & Hmin & Hfirst).
  rewrite length_map, Hlen in Hi, Hmin. rewrite Hget.
  pose proof (fun i j => strictly_ascending_nth _ i j Hsorted) as Hasc.
  rewrite length_map, Hlen in Hasc.
  split; intro Ht; f_equal; rewrite <- nth_map_to_utc in Ht.
  - destruct i as [|i']; [reflexivity|exfalso].
    specialize (Hmin O ltac:(lia)). specialize (Hasc O (S i') ltac:(lia)). lia.
  - destruct (Nat.eq_dec i (length hourly_times - 1)) as [E|E]; [exact E|exfalso].
    specialize (Hmin (length hourly_times - 1)%nat ltac:(lia)).
    specialize (Hasc i (length hourly_times - 1)%nat ltac:(lia)). lia.
Qed.

(** On timestamps that [isoparse] reads, whose UTC instants stay within the
    years 1 to 9999 and are at most [g] apart one to the next (an hourly
    series has [g] = one hour), a current time between the first and the
    last instant selects a timestamp at most [g / 2] away from it. *)
Theorem get_closest_utc_index_within_half_gap (current_time g : Z)
  (hourly_times : list string) (parsed_times : list parsed_datetime)
  (Hparse : map_result isoparse hourly_times = Ok parsed_times)
  (Hrange : Forall utc_in_range parsed_times)
  (Hg : 0 <= g)
  (Hgaps : gaps_at_most g (map to_utc parsed_times) = true)
  (Hne : (0 < length hourly_times)%nat)
  (Hin : to_utc (nth 0 parsed_times epoch_naive) <= current_time
         <= last (map to_utc parsed_times) 0) :
  exists i,
    get_closest_utc_index current_time hourly_times = Ok i
    /\ (i < length hourly_times)%nat
    /\ 2 * Z.abs (to_utc (nth i parsed_times epoch_naive) - current_time) <= g.
Proof.
  pose proof (map_result_length _ _ _ Hparse) as Hlen.
  destruct (get_closest_utc_index_min current_time hourly_times parsed_times Hparse Hrange Hne)
    as (i & Hget & Hi & Hmin & _).
  rewrite length_map in Hi, Hmin.
  assert (Hne' : map to_utc parsed_times <> []).
  { intro E. apply (f_equal (@length Z)) in E. rewrite length_map in E. simpl in E. lia. }
  rewrite <- nth_map_to_utc in Hin.
  destruct (gaps_at_most_near g current_time _ Hg Hgaps Hne' Hin) as [j [Hj Hd]].
  rewrite length_map in Hj.
  exists i. split; [exact Hget|]. split; [lia|].
  rewrite <- nth_map_to_utc. specialize (Hmin j Hj). lia.
Qed.

(* ================================================================== *)
(** * Dicts built from JSON objects *)

Lemma obj_lookup_fold_acc {A} (k : string) (kvs : list (string * A)) (acc : option A) :
  fold_left (fun acc '(k', v) => if String.eqb k k' then Some v else acc) kvs acc
  = match fold_left (fun acc '(k', v) => if String.eqb k k' then Some v else acc) kvs None with
    | Some x => Some x
    | None => acc
    end.
Proof.
  revert acc. induction kvs as [|[k' v'] rest IH]; intro acc; [reflexivity|].
  simpl. rewrite (IH (if String.eqb k k' then Some v' else acc)).
  rewrite (IH (if String.eqb k k' then Some v' else None)).
  destruct (fold_left _ rest None); [reflexivity|].
  destruct (String.eqb k k'); reflexivity.
Qed.

Lemma obj_lookup_cons {A} (k k' : string) (v : A) (rest : list (string * A)) :
  obj_lookup k ((k', v) :: rest)
  = match obj_lookup k rest with
    | Some x => Some x
    | None => if String.eqb k k' then Some v else None
    end.
Proof. unfold obj_lookup. simpl. apply obj_lookup_fold_acc. Qed.

Lemma obj_lookup_not_in {A} (k : string) (kvs : list (string * A)) :
  ~ In k (map fst kvs) -> obj_lookup k kvs = None.
Proof.
  induction kvs as [|[k' v'] rest IH]; intro Hn; [reflexivity|].
  rewrite obj_lookup_cons. rewrite IH by (intro; apply Hn; now right).
  destruct (String.eqb_spec k k'); [subst; exfalso; apply Hn; now left|reflexivity].
Qed.

Lemma dict_set_keys {A} (kvs : list (string * A)) (k : string) (v : A) :
  forall x, In x (map fst (dict_set kvs k v)) <-> In x (map fst kvs) \/ x = k.
Proof.
  induction kvs as [|[k' v'] rest IH]; intro x; simpl.
  - intuition.
  - destruct (String.eqb_spec k k'); simpl; [subst; intuition|].
    rewrite IH. intuition.
Qed.

Lemma dict_set_nodup {A} (kvs : list (string * A)) (k : string) (v : A) :
  NoDup (map fst kvs) -> NoDup (map fst (dict_set kvs k v)).
Proof.
  induction kvs as [|[k' v'] rest IH]; intro Hnd; simpl.
  - repeat constructor. intros [].
  - inversion Hnd as [|? ? Hn Hnd']; subst.
    destruct (String.eqb_spec k k'); simpl; constructor; auto.
    rewrite dict_set_keys. intros [H|H]; [contradiction|subst; auto].
Qed.

Lemma dict_set_lookup {A} (kvs : list (string * A)) (k k' : string) (v : A) :
  NoDup (map fst kvs) ->
  obj_lookup k (dict_set kvs k' v) = if String.eqb k k' then Some v else obj_lookup k kvs.
Proof.
  induction kvs as [|[k'' v''] rest IH]; intro Hnd; simpl.
  - rewrite obj_lookup_cons. reflexivity.
  - inversion Hnd as [|? ? Hn Hnd']; subst.
    destruct (String.eqb_spec k' k'') as [E|E].
    + subst k'. rewrite !obj_lookup_cons.
      destruct (String.eqb_spec k k''); [subst k; now rewrite (obj_lookup_not_in k'' rest Hn)|].
      destruct (obj_lookup k rest); reflexivity.
    + rewrite !obj_lookup_cons, (IH Hnd').
      destruct (String.eqb k k'); reflexivity.
Qed.

Lemma py_dict_items_spec {A} (kvs : list (string * A)) :
  NoDup (map fst (py_dict_items kvs))
  /\ forall k, obj_lookup k (py_dict_items kvs) = obj_lookup k kvs.
Proof.
  unfold py_dict_items. induction kvs as [|[k v] rest IH] using rev_ind.
  - split; [constructor|reflexivity].
  - rewrite fold_left_app. simpl. destruct IH as [Hnd Hlk].
    split; [now apply dict_set_nodup|].
    intro k'. rewrite dict_set_lookup by exact Hnd. rewrite Hlk.
    unfold obj_lookup. rewrite fold_left_app. simpl.
    destruct (String.eqb k' k); reflexivity.
Qed.

(* ================================================================== *)
(** * Current air-quality readings *)

Lemma map_result_utc_time_of_json (l : list string) :
  map_result utc_time_of_json (map JStr l) = map_result utc_time_of l.
Proof.
  induction l as [|t rest IH]; [reflexivity|]. cbn [map map_result]. now rewrite IH.
Qed.

Lemma get_closest_utc_index_json_strings (current_time : Z) (l : list string) :
  get_closest_utc_index_json current_time (JArr (map JStr l))
  = get_closest_utc_index current_time l.
Proof.
  unfold get_closest_utc_index_json, get_closest_utc_index. simpl.
  now rewrite map_result_utc_time_of_json.
Qed.

Lemma aq_fold_spec (i : nat) (items acc : list (string * json)) :
  NoDup (map fst items) -> NoDup (map fst acc) ->
  let res := fold_left (fun current_aq '(key, values) =>
               match values with
               | JArr l =>
                   if negb (String.eqb key "time") && Nat.ltb i (length l)
                   then dict_set current_aq key (nth i l JNull)
                   else current_aq
               | _ => current_aq
               end) items acc in
  NoDup (map fst res)
  /\ forall key, obj_lookup key res
                 = match aq_reading i items key with Some v => Some v | None => obj_lookup key acc end.
Proof.
  cbv zeta. revert acc. induction items as [|[k0 v0] rest IH]; intros acc Hni Hna.
  - split; [exact Hna|]. intro key. reflexivity.
  - inversion Hni as [|? ? Hn Hnr]; subst. simpl.
    set (acc' := match v0 with
                 | JArr l => if negb (String.eqb k0 "time") && Nat.ltb i (length l)
                             then dict_set acc k0 (nth i l JNull) else acc
                 | _ => acc end).
    assert (Hna' : NoDup (map fst acc')).
    { unfold acc'. destruct v0; try exact Hna.
      destruct (_ && _); [now apply dict_set_nodup|exact Hna]. }
    destruct (IH acc' Hnr Hna') as [Hnd Hlk]. split; [exact Hnd|].
    intro key. rewrite Hlk. unfold aq_reading. rewrite obj_lookup_cons.
    destruct (String.eqb_spec key k0) as [E|E].
    + subst key. rewrite (obj_lookup_not_in k0 rest Hn).
      unfold acc'. destruct v0 as [| | | |l|]; try reflexivity.
      destruct (negb (String.eqb k0 "time") && Nat.ltb i (length l)); [|reflexivity].
      rewrite dict_set_lookup by exact Hna. now rewrite String.eqb_refl.
    + assert (Hacc : obj_lookup key acc' = obj_lookup key acc).
      { unfold acc'. destruct v0 as [| | | |l|]; try reflexivity.
        destruct (negb (String.eqb k0 "time") && Nat.ltb i (length l)); [|reflexivity].
        rewrite dict_set_lookup by exact Hna. apply String.eqb_neq in E. now rewrite E. }
      rewrite Hacc. destruct (obj_lookup key rest); reflexivity.
Qed.

(** For an [aq_data] whose ["hourly"] dict has a non-empty ["time"] list of
    timestamps that [isoparse] reads, with UTC instants within the years 1
    to 9999, [get_current_air_quality_index] takes the index
    [i] of the timestamp closest to the current time and returns a dict with
    distinct keys that starts with ["time"] (the [i]-th timestamp) and maps
    every other key of ["hourly"] whose value is a list longer than [i] to
    its [i]-th item; a key whose value is not a list, or is too short, is
    left out. *)
Theorem get_current_air_quality_index_readings (current_time : Z)
  (aq_kvs hourly : list (string * json)) (times : list string)
  (parsed_times : list parsed_datetime)
  (Hhourly : obj_lookup "hourly" aq_kvs = Some (JObj hourly))
  (Htime : obj_lookup "time" hourly = Some (JArr (map JStr times)))
  (Hparse : map_result isoparse times = Ok parsed_times)
  (Hrange : Forall utc_in_range parsed_times)
  (Hne : (0 < length times)%nat) :
  exists i current_aq,
    get_closest_utc_index current_time times = Ok i
    /\ AirQualityService.get_current_air_quality_index current_time (JObj aq_kvs)
       = Ok (JObj current_aq)
    /\ hd_error current_aq = Some ("time", JStr (nth i times ""))
    /\ NoDup (map fst current_aq)
    /\ forall key,
         obj_lookup key current_aq
         = if String.eqb key "time" then Some (JStr (nth i times ""))
           else match obj_lookup key hourly with
                | Some (JArr l) => if Nat.ltb i (length l) then Some (nth i l JNull) else None
                | _ => None
                end.
Proof.
  destruct (get_closest_utc_index_min current_time times parsed_times Hparse Hrange Hne)
    as (i & Hget & Hi & _ & _).
  rewrite length_map, (map_result_length _ _ _ Hparse) in Hi.
  destruct (py_dict_items_spec hourly) as [Hnd Hlk].
  assert (Hnt : NoDup (map fst [("time", JStr (nth i times ""))])) by (repeat constructor; intros []).
  destruct (aq_fold_spec i (py_dict_items hourly) [("time", JStr (nth i times ""))] Hnd Hnt)
    as [Hnd' Hlk'].
  cbv zeta in Hnd', Hlk'.
  exists i. eexists. split; [exact Hget|]. split.
  - unfold AirQualityService.get_current_air_quality_index, getitem_str.
    rewrite Hhourly. simpl bind. rewrite Htime. simpl bind.
    rewrite get_closest_utc_index_json_strings, Hget. simpl bind.
    unfold getitem_index. rewrite nth_error_map.
    rewrite (nth_error_nth' times "" Hi). reflexivity.
  - split; [|split; [exact Hnd'|]].
    + destruct (py_dict_items hourly) as [|[k0 v0] rest] eqn:E; [reflexivity|].
      (* the loop only adds keys after "time", or updates other keys *)
      assert (Hpref : forall items acc t,
                 hd_error acc = Some ("time", t) ->
                 hd_error (fold_left (fun current_aq '(key, values) =>
                   match values with
                   | JArr l => if negb (String.eqb key "time") && Nat.ltb i (length l)
                               then dict_set current_aq key (nth i l JNull) else current_aq
                   | _ => current_aq
                   end) items acc) = Some ("time", t)).
      { induction items as [|[k v] items' IHi]; intros acc t Hh; [exact Hh|].
        simpl. apply IHi. destruct v; try exact Hh.
        destruct (String.eqb_spec k "time") as [Ek|Ek]; [exact Hh|].
        destruct (Nat.ltb i (length l)); [|exact Hh]. simpl.
        destruct acc as [|[k' v'] acc']; [discriminate|]. simpl in Hh. inversion Hh; subst.
        simpl. apply String.eqb_neq in Ek. rewrite Ek. reflexivity. }
      apply Hpref. reflexivity.
    + intro key. rewrite Hlk'. unfold aq_reading. rewrite Hlk.
      destruct (String.eqb_spec key "time") as [Ek|Ek].
      * subst. rewrite Htime. simpl. reflexivity.
      * apply String.eqb_neq in Ek as Ek'.
        assert (Ht : obj_lookup key [("time", JStr (nth i times ""))] = None)
          by (rewrite obj_lookup_cons; simpl; now rewrite Ek').
        rewrite Ht. simpl negb.
        destruct (obj_lookup key hourly) as [[| | | |l|]|]; try reflexivity.
        simpl andb. destruct (Nat.ltb i (length l)); reflexivity.
Qed.

(* ================================================================== *)
(** * Weather requests *)

Lemma eval_fields_ok (hourly_at : string -> result json) (f : field_src -> json)
  (fields : list (string * field_src)) :
  (forall out src, In (out, src) fields -> eval_field hourly_at src = Ok (f src)) ->
  eval_fields hourly_at fields = Ok (map (fun '(out, src) => (out, f src)) fields).
Proof.
  unfold eval_fields. induction fields as [|[out src] rest IH]; intro H; [reflexivity|].
  simpl. rewrite (H out src (or_introl eq_refl)). simpl.
  rewrite IH by (intros; eapply H; right; eassumption). reflexivity.
Qed.

Lemma get_coordinates_not_key_index (http_get : string -> http_response) (city : string) (m : string) :
  get_coordinates http_get city <> Raise (KeyError m)
  /\ get_coordinates http_get city <> Raise (IndexError m).
Proof.
  unfold get_coordinates. destruct (http_get _) as [m'|sc body]; [split; discriminate|].
  destruct (get_coordinates_body city sc body) as [a|[]]; split; discriminate.
Qed.

Lemma invalid_weather_format_other {A} (e : exn) :
  (forall m, e <> KeyError m) -> (forall m, e <> IndexError m) ->
  WeatherService.invalid_weather_format (Raise e : result A) = Raise e.
Proof.
  intros Hk Hi. destruct e; try reflexivity; exfalso; [eapply Hk|eapply Hi]; reflexivity.
Qed.

(** Reading index [i] of every series the literal needs: each field takes
    its [field_value]. *)
Lemma eval_fields_ready (fields : list (string * field_src)) (hourly : list (string * json))
  (n i : nat) (hourly_at : string -> result json) :
  series_ready fields n hourly = true -> (i < n)%nat ->
  (forall k l, obj_lookup k hourly = Some (JArr l) -> (i < length l)%nat ->
               hourly_at k = Ok (nth i l JNull)) ->
  (forall src, In src (map snd fields) -> field_series src = "weather_code"
               \/ match src with Series _ => True | Description _ => False end) ->
  codes_hashable hourly = true ->
  eval_fields hourly_at fields = Ok (map (fun '(out, src) => (out, field_value hourly i src)) fields).
Proof.
  intros Hready Hi Hat Hsrc Hcodes. apply eval_fields_ok. intros out src Hin.
  unfold series_ready in Hready. rewrite forallb_forall in Hready.
  specialize (Hready (out, src) Hin). cbv beta iota in Hready.
  destruct (obj_lookup (field_series src) hourly) as [[| | | |l|]|] eqn:Hl;
    try discriminate.
  apply Nat.leb_le in Hready.
  unfold field_value. rewrite Hl.
  destruct src as [k|k]; simpl in Hl |- *; rewrite (Hat _ _ Hl ltac:(lia)); [reflexivity|].
  simpl.
  assert (Hk : k = "weather_code").
  { destruct (Hsrc (Description k)) as [E|[]]; [|exact E].
    change (Description k) with (snd (out, Description k)). now apply in_map. }
  subst k. unfold codes_hashable in Hcodes. rewrite Hl, forallb_forall in Hcodes.
  assert (Hc : In (nth i l JNull) l) by (apply nth_In; lia).
  specialize (Hcodes _ Hc).
  destruct (nth i l JNull); try discriminate; unfold weather_description_json;
    try destruct (Z.eqb _ 1); reflexivity.
Qed.

Lemma current_weather_fields_codes :
  forall src, In src (map snd WeatherService.current_weather_fields) ->
  field_series src = "weather_code" \/ match src with Series _ => True | Description _ => False end.
Proof.
  intros src Hin. simpl in Hin.
  repeat (destruct Hin as [<-|Hin]; [simpl; auto|]); contradiction.
Qed.

Lemma range_weather_fields_codes :
  forall src, In src (map snd WeatherService.range_weather_fields) ->
  field_series src = "weather_code" \/ match src with Series _ => True | Description _ => False end.
Proof.
  intros src Hin. simpl in Hin.
  repeat (destruct Hin as [<-|Hin]; [simpl; auto|]); contradiction.
Qed.

(** When the city resolves and the weather API answers 200 with an
    ["hourly"] dict whose ["time"] list is non-empty and parses, with UTC
    instants within the years 1 to 9999, and whose
    other series are lists at least as long with hashable weather codes,
    [get_current_weather] returns the city, its coordinates, then the 18
    fields of [current_weather_fields], each read at the one index [i] that
    [get_closest_utc_index] selects; the weather description is that of the
    weather code at [i]. *)
Theorem get_current_weather_reads_closest_hour (http_get : string -> http_response)
  (current_time : Z) (py_str : json -> string) (city latitude longitude : json)
  (body hourly : list (string * json)) (times : list string)
  (parsed_times : list parsed_datetime)
  (Hgeo : get_coordinates http_get (py_str city) = Ok (latitude, longitude))
  (Hresp : http_get (WeatherService.current_weather_url py_str latitude longitude)
           = Response 200 (Some (JObj body)))
  (Hhourly : obj_lookup "hourly" body = Some (JObj hourly))
  (Htime : obj_lookup "time" hourly = Some (JArr (map JStr times)))
  (Hparse : map_result isoparse times = Ok parsed_times)
  (Hrange : Forall utc_in_range parsed_times)
  (Hne : (0 < length times)%nat)
  (Hready : series_ready WeatherService.current_weather_fields (length times) hourly = true)
  (Hcodes : codes_hashable hourly = true) :
  exists i,
    get_closest_utc_index current_time times = Ok i
    /\ WeatherService.get_current_weather http_get current_time py_str city
       = Ok (JObj ([("city", city); ("latitude", latitude); ("longitude", longitude)]
                   ++ map (fun '(out, src) => (out, field_value hourly i src))
                          WeatherService.current_weather_fields)).
Proof.
  destruct (get_closest_utc_index_min current_time times parsed_times Hparse Hrange Hne)
    as (i & Hget & Hi & _ & _).
  rewrite length_map, (map_result_length _ _ _ Hparse) in Hi.
  exists i. split; [exact Hget|].
  unfold WeatherService.get_current_weather. rewrite Hgeo. simpl bind. rewrite Hresp.
  unfold WeatherService.current_weather_from_response. simpl Z.eqb. cbn iota beta.
  unfold response_json, bind at 1. unfold getitem_str at 1 2. rewrite Hhourly. simpl bind.
  rewrite Htime. simpl bind.
  rewrite get_closest_utc_index_json_strings, Hget. simpl bind.
  rewrite (eval_fields_ready _ hourly (length times) i) with (hourly_at := fun k =>
      hourly0 <- getitem_str (JObj body) "hourly" ;;
      series <- getitem_str hourly0 k ;; getitem_index series i); try assumption.
  - reflexivity.
  - intros k l Hl Hil. unfold getitem_str at 1. rewrite Hhourly. simpl bind.
    unfold getitem_str. rewrite Hl. simpl bind. unfold getitem_index.
    now rewrite (nth_error_nth' l JNull Hil).
  - exact current_weather_fields_codes.
Qed.

Lemma map_result_ok {A B} (f : A -> result B) (g : A -> B) (l : list A) :
  (forall x, In x l -> f x = Ok (g x)) -> map_result f l = Ok (map g l).
Proof.
  induction l as [|x rest IH]; intro H; [reflexivity|].
  simpl. rewrite (H x (or_introl eq_refl)). simpl.
  rewrite IH by (intros; apply H; now right). reflexivity.
Qed.

(** When the city resolves and the weather API answers 200 with an
    ["hourly"] dict whose ["time"] value is a list [ts], and whose series are
    lists at least as long with hashable weather codes,
    [get_weather_by_date_range] returns the city, its coordinates, the two
    dates and [weather_data]: one record per item of [ts], in order, record
    [i] holding the 18 fields of [range_weather_fields] read at index [i]. *)
Theorem get_weather_by_date_range_one_record_per_hour (http_get : string -> http_response)
  (py_str : json -> string) (city start_date end_date latitude longitude : json)
  (body hourly : list (string * json)) (ts : list json)
  (Hgeo : get_coordinates http_get (py_str city) = Ok (latitude, longitude))
  (Hresp : http_get (WeatherService.weather_range_url py_str latitude longitude start_date end_date)
           = Response 200 (Some (JObj body)))
  (Hhourly : obj_lookup "hourly" body = Some (JObj hourly))
  (Htime : obj_lookup "time" hourly = Some (JArr ts))
  (Hready : series_ready WeatherService.range_weather_fields (length ts) hourly = true)
  (Hcodes : codes_hashable hourly = true) :
  WeatherService.get_weather_by_date_range http_get py_str city start_date end_date
  = Ok (JObj [("city", city); ("latitude", latitude); ("longitude", longitude);
              ("start_date", start_date); ("end_date", end_date);
              ("weather_data",
               JArr (map (fun i => JObj (map (fun '(out, src) => (out, field_value hourly i src))
                                             WeatherService.range_weather_fields))
                         (seq 0 (length ts))))]).
Proof.
  unfold WeatherService.get_weather_by_date_range. rewrite Hgeo. simpl bind. rewrite Hresp.
  unfold WeatherService.weather_range_from_response. simpl Z.eqb. cbn iota beta.
  cbn [response_json bind]. unfold getitem_str at 1. rewrite Hhourly. cbn [bind].
  unfold getitem_str at 1. rewrite Htime. cbn [bind py_len].
  rewrite (map_result_ok _ (fun i => JObj (map (fun '(out, src) => (out, field_value hourly i src))
                                             WeatherService.range_weather_fields))).
  - reflexivity.
  - intros i Hin. apply in_seq in Hin.
    rewrite (eval_fields_ready _ hourly (length ts) i); try assumption.
    + reflexivity.
    + lia.
    + intros k l Hl Hil. unfold getitem_str. rewrite Hl. simpl bind. unfold getitem_index.
      now rewrite (nth_error_nth' l JNull Hil).
    + exact range_weather_fields_codes.
Qed.

(** The errors of [get_current_weather]: a geocoding error propagates as it
    is; a network error, a status other than 200 and a response without an
    ["hourly"] key become [ValueError]s; an empty ["time"] list raises the
    [ValueError] of [min()] on an empty sequence, which is not reported as an
    invalid response. *)
Theorem get_current_weather_errors (http_get : string -> http_response) (current_time : Z)
  (py_str : json -> string) (city : json) :
  (forall e, get_coordinates http_get (py_str city) = Raise e ->
     WeatherService.get_current_weather http_get current_time py_str city = Raise e)
  /\ (forall latitude longitude m,
        get_coordinates http_get (py_str city) = Ok (latitude, longitude) ->
        http_get (WeatherService.current_weather_url py_str latitude longitude) = RequestError m ->
        WeatherService.get_current_weather http_get current_time py_str city
        = Raise (ValueError ("Network error while fetching weather for " ++ py_str city
                             ++ ": " ++ m)))
  /\ (forall latitude longitude status_code b,
        get_coordinates http_get (py_str city) = Ok (latitude, longitude) ->
        http_get (WeatherService.current_weather_url py_str latitude longitude)
          = Response status_code b ->
        status_code <> 200 ->
        WeatherService.get_current_weather http_get current_time py_str city
        = Raise (ValueError ("Weather API returned status " ++ z_to_string status_code)))
  /\ (forall latitude longitude body,
        get_coordinates http_get (py_str city) = Ok (latitude, longitude) ->
        http_get (WeatherService.current_weather_url py_str latitude longitude)
          = Response 200 (Some (JObj body)) ->
        obj_lookup "hourly" body = None ->
        WeatherService.get_current_weather http_get current_time py_str city
        = Raise (ValueError "Invalid response format from weather API: 'hourly'"))
  /\ (forall latitude longitude body hourly,
        get_coordinates http_get (py_str city) = Ok (latitude, longitude) ->
        http_get (WeatherService.current_weather_url py_str latitude longitude)
          = Response 200 (Some (JObj body)) ->
        obj_lookup "hourly" body = Some (JObj hourly) ->
        obj_lookup "time" hourly = Some (JArr []) ->
        WeatherService.get_current_weather http_get current_time py_str city
        = Raise (ValueError "min() arg is an empty sequence")).
Proof.
  unfold WeatherService.get_current_weather.
  split; [|split; [|split; [|split]]].
  - intros e He. rewrite He. simpl bind.
    apply invalid_weather_format_other; intros m Em; subst e;
      destruct (get_coordinates_not_key_index http_get (py_str city) m) as [Hk Hi];
      [exact (Hk He)|exact (Hi He)].
  - intros latitude longitude m Hgeo Hreq. rewrite Hgeo. simpl bind. now rewrite Hreq.
  - intros latitude longitude status_code b Hgeo Hreq Hne. rewrite Hgeo. simpl bind.
    rewrite Hreq. unfold WeatherService.current_weather_from_response.
    apply Z.eqb_neq in Hne. now rewrite Hne.
  - intros latitude longitude body Hgeo Hreq Hh. rewrite Hgeo. simpl bind. rewrite Hreq.
    unfold WeatherService.current_weather_from_response. simpl.
    unfold getitem_str. now rewrite Hh.
  - intros latitude longitude body hourly Hgeo Hreq Hh Ht. rewrite Hgeo. simpl bind.
    rewrite Hreq. unfold WeatherService.current_weather_from_response. simpl.
    unfold getitem_str at 1. rewrite Hh. simpl bind. unfold getitem_str. rewrite Ht.
    reflexivity.
Qed.

(** The errors of [get_weather_by_date_range]: a geocoding error propagates
    as it is; a network error, a status other than 200 and a response without
    an ["hourly"] key become [ValueError]s; an empty ["time"] list is no
    error: [weather_data] is then empty. *)
Theorem get_weather_by_date_range_errors (http_get : string -> http_response)
  (py_str : json -> string) (city start_date end_date : json) :
  (forall e, get_coordinates http_get (py_str city) = Raise e ->
     WeatherService.get_weather_by_date_range http_get py_str city start_date end_date = Raise e)
  /\ (forall latitude longitude m,
        get_coordinates http_get (py_str city) = Ok (latitude, longitude) ->
        http_get (WeatherService.weather_range_url py_str latitude longitude start_date end_date)
          = RequestError m ->
        WeatherService.get_weather_by_date_range http_get py_str city start_date end_date
        = Raise (ValueError ("Network error while fetching weather for " ++ py_str city
                             ++ ": " ++ m)))
  /\ (forall latitude longitude status_code b,
        get_coordinates http_get (py_str city) = Ok (latitude, longitude) ->
        http_get (WeatherService.weather_range_url py_str latitude longitude start_date end_date)
          = Response status_code b ->
        status_code <> 200 ->
        WeatherService.get_weather_by_date_range http_get py_str city start_date end_date
        = Raise (ValueError ("Weather API returned status " ++ z_to_string status_code)))
  /\ (forall latitude longitude body,
        get_coordinates http_get (py_str city) = Ok (latitude, longitude) ->
        http_get (WeatherService.weather_range_url py_str latitude longitude start_date end_date)
          = Response 200 (Some (JObj body)) ->
        obj_lookup "hourly" body = None ->
        WeatherService.get_weather_by_date_range http_get py_str city start_date end_date
        = Raise (ValueError "Invalid response format from weather API: 'hourly'"))
  /\ (forall latitude longitude body hourly,
        get_coordinates http_get (py_str city) = Ok (latitude, longitude) ->
        http_get (WeatherService.weather_range_url py_str latitude longitude start_date end_date)
          = Response 200 (Some (JObj body)) ->
        obj_lookup "hourly" body = Some (JObj hourly) ->
        obj_lookup "time" hourly = Some (JArr []) ->
        WeatherService.get_weather_by_date_range http_get py_str city start_date end_date
        = Ok (JObj [("city", city); ("latitude", latitude); ("longitude", longitude);
                    ("start_date", start_date); ("end_date", end_date);
                    ("weather_data", JArr [])])).
Proof.
  unfold WeatherService.get_weather_by_date_range.
  split; [|split; [|split; [|split]]].
  - intros e He. rewrite He. simpl bind.
    apply invalid_weather_format_other; intros m Em; subst e;
      destruct (get_coordinates_not_key_index http_get (py_str city) m) as [Hk Hi];
      [exact (Hk He)|exact (Hi He)].
  - intros latitude longitude m Hgeo Hreq. rewrite Hgeo. simpl bind. now rewrite Hreq.
  - intros latitude longitude status_code b Hgeo Hreq Hne. rewrite Hgeo. simpl bind.
    rewrite Hreq. unfold WeatherService.weather_range_from_response.
    apply Z.eqb_neq in Hne. now rewrite Hne.
  - intros latitude longitude body Hgeo Hreq Hh. rewrite Hgeo. simpl bind. rewrite Hreq.
    unfold WeatherService.weather_range_from_response. simpl.
    unfold getitem_str. now rewrite Hh.
  - intros latitude longitude body hourly Hgeo Hreq Hh Ht. rewrite Hgeo. simpl bind.
    rewrite Hreq. unfold WeatherService.weather_range_from_response. simpl.
    unfold getitem_str at 1. rewrite Hh. simpl bind. unfold getitem_str. rewrite Ht.
    reflexivity.
Qed.

Definition join_item (ix : nat * json) : result string :=
  let '(i, x) := ix in
  match x with
  | JStr s => Ok s
  | _ => Raise (TypeError ("sequence item " ++ z_to_string (Z.of_nat i)
                           ++ ": expected str instance, " ++ type_name x ++ " found"))
  end.

Lemma py_str_join_list (sep : string) (l : list json) :
  py_str_join sep (JArr l) =
  (strs <- map_result join_item (combine (seq 0 (length l)) l) ;; Ok (join sep strs)).
Proof. reflexivity. Qed.

Lemma join_items_strings (k : nat) (vars : list string) :
  map_result join_item (combine (seq k (length (map JStr vars))) (map JStr vars)) = Ok vars.
Proof.
  revert k. induction vars as [|v rest IH]; intro k; [reflexivity|].
  simpl. rewrite IH. reflexivity.
Qed.


(** What [get_air_quality] returns once the list of hourly variables is a
    list of strings (or [None], read as the five default variables): it
    requests the URL with the coordinates and the variables joined by
    commas; a 200 response gives its JSON body unchanged; another status, a
    network error and an empty body all raise [ValueError]. *)
Theorem get_air_quality_outcomes (http_get : string -> http_response) (py_str : json -> string)
  (latitude longitude hourly_vars : json) (vars : list string)
  (Hvars : hourly_vars = JArr (map JStr vars)
           \/ (hourly_vars = JNull
               /\ vars = ["pm10"; "pm2_5"; "ozone"; "nitrogen_dioxide"; "carbon_monoxide"])) :
  let url := AirQualityService.BASE_AIR_QUALITY_URL ++ "?latitude=" ++ py_str latitude
             ++ "&longitude=" ++ py_str longitude
             ++ "&hourly=" ++ join "," vars ++ "&timezone=GMT" in
  let r := AirQualityService.get_air_quality http_get py_str latitude longitude hourly_vars in
  (forall v, http_get url = Response 200 (Some v) -> r = Ok v)
  /\ (forall status_code b, http_get url = Response status_code b -> status_code <> 200 ->
        r = Raise (ValueError ("Air Quality API returned status " ++ z_to_string status_code)))
  /\ (forall m, http_get url = RequestError m ->
        r = Raise (ValueError ("Network error while fetching air quality data: " ++ m)))
  /\ (http_get url = Response 200 None ->
        r = Raise (ValueError "Expecting value: line 1 column 1 (char 0)")).
Proof.
  intros url r.
  assert (Hr : r = match http_get url with
      | RequestError m =>
          Raise (ValueError ("Network error while fetching air quality data: " ++ m))
      | Response status_code body =>
          match (if negb (Z.eqb status_code 200)
                 then Raise (ValueError ("Air Quality API returned status "
                                         ++ z_to_string status_code))
                 else response_json body) with
          | Raise (KeyError m) | Raise (IndexError m) =>
              Raise (ValueError ("Invalid response format from air quality API: " ++ m))
          | r => r
          end
      end).
  { subst r url. unfold AirQualityService.get_air_quality.
    destruct Hvars as [-> | [-> ->]].
    - destruct vars as [|v vs].
      + reflexivity.
      + cbv zeta. rewrite py_str_join_list, join_items_strings. reflexivity.
    - reflexivity. }
  rewrite Hr. clear Hr.
  split; [|split; [|split]].
  - intros v ->. reflexivity.
  - intros status_code b -> Hne. apply Z.eqb_neq in Hne. now rewrite Hne.
  - intros m ->. reflexivity.
  - intros ->. reflexivity.
Qed.


(** The errors of [get_current_air_quality_index]: without an ["hourly"]
    key it raises [KeyError('hourly')], and with an empty ["time"] list it
    raises the [ValueError] of [min()] on an empty sequence. *)
Theorem get_current_air_quality_index_errors (current_time : Z) (aq_kvs : list (string * json)) :
  (obj_lookup "hourly" aq_kvs = None ->
   AirQualityService.get_current_air_quality_index current_time (JObj aq_kvs)
   = Raise (KeyError "'hourly'"))
  /\ (forall hourly, obj_lookup "hourly" aq_kvs = Some (JObj hourly) ->
        obj_lookup "time" hourly = Some (JArr []) ->
        AirQualityService.get_current_air_quality_index current_time (JObj aq_kvs)
        = Raise (ValueError "min() arg is an empty sequence")).
Proof.
  unfold AirQualityService.get_current_air_quality_index. split.
  - intro H. unfold getitem_str at 1. now rewrite H.
  - intros hourly Hh Ht. unfold getitem_str at 1. rewrite Hh. cbn [bind].
    unfold getitem_str. rewrite Ht. reflexivity.
Qed.

Lemma obj_lookup_snoc {A} (k k' : string) (v : A) (kvs : list (string * A)) :
  obj_lookup k (kvs ++ [(k', v)]) = if String.eqb k k' then Some v else obj_lookup k kvs.
Proof. unfold obj_lookup. rewrite fold_left_app. reflexivity. Qed.

Lemma dict_set_keys_order {A} (kvs : list (string * A)) (k : string) (v : A) :
  map fst (dict_set kvs k v)
  = if existsb (String.eqb k) (map fst kvs) then map fst kvs else (map fst kvs ++ [k])%list.
Proof.
  induction kvs as [|[k' v'] rest IH]; [reflexivity|]. simpl.
  destruct (String.eqb k k') eqn:E; simpl.
  - apply String.eqb_eq in E. now subst.
  - rewrite IH. now destruct (existsb (String.eqb k) (map fst rest)).
Qed.

Lemma dict_set_value_at {A} (kvs : list (string * A)) (k : string) (v : A) :
  NoDup (map fst kvs) -> In (k, v) (dict_set kvs k v).
Proof.
  induction kvs as [|[k' v'] rest IH]; intro Hnd; simpl; [now left|].
  destruct (String.eqb k k') eqn:E.
  - apply String.eqb_eq in E. subst. now left.
  - right. apply IH. now inversion Hnd.
Qed.

Lemma py_dict_items_snoc {A} (kvs : list (string * A)) (k : string) (v : A) :
  py_dict_items (kvs ++ [(k, v)]) = dict_set (py_dict_items kvs) k v.
Proof. unfold py_dict_items. now rewrite fold_left_app. Qed.

Lemma py_dict_items_keys_in {A} (kvs : list (string * A)) (k : string) :
  existsb (String.eqb k) (map fst (py_dict_items kvs)) = existsb (String.eqb k) (map fst kvs).
Proof.
  induction kvs as [|[k' v'] rest IH] using rev_ind; [reflexivity|].
  rewrite py_dict_items_snoc, dict_set_keys_order, map_app, existsb_app. simpl.
  rewrite orb_false_r, <- IH.
  destruct (existsb (String.eqb k') (map fst (py_dict_items rest))) eqn:E.
  - destruct (String.eqb k k') eqn:E'; [|now rewrite orb_false_r].
    apply String.eqb_eq in E'. subst. now rewrite E.
  - rewrite existsb_app. simpl. now rewrite orb_false_r.
Qed.

(** [add_tool_handler] then [get_tool_handler]: the new handler is found
    under its name, and every other name keeps its handler. In the dict
    whose values [list_tools] describes, a name registered again keeps its
    place (no tool is added) and a new name goes last; the new handler is
    one of the values. *)
Theorem add_tool_handler_spec (reg : registry) (h : tool_handler) :
  (forall tool_name, get_tool_handler (add_tool_handler reg h) tool_name
     = if String.eqb tool_name (name h) then Some h else get_tool_handler reg tool_name)
  /\ map fst (py_dict_items (add_tool_handler reg h))
     = (if existsb (String.eqb (name h)) (map fst reg)
        then map fst (py_dict_items reg)
        else (map fst (py_dict_items reg) ++ [name h])%list)
  /\ In h (tool_handlers_values (add_tool_handler reg h)).
Proof.
  split; [|split].
  - intro tool_name. apply obj_lookup_snoc.
  - unfold add_tool_handler.
    now rewrite py_dict_items_snoc, dict_set_keys_order, py_dict_items_keys_in.
  - unfold tool_handlers_values, add_tool_handler. rewrite py_dict_items_snoc.
    apply (in_map snd _ (name h, h)). apply dict_set_value_at.
    apply (proj1 (py_dict_items_spec reg)).
Qed.

Lemma validate_required_args_missing (args : args_t) (required_fields : list string) :
  missing_fields args required_fields <> [] ->
  validate_required_args args required_fields
  = Raise (RuntimeError ("Missing required arguments: "
                         ++ join ", " (missing_fields args required_fields))).
Proof.
  unfold validate_required_args. destruct (missing_fields args required_fields); [easy|].
  reflexivity.
Qed.

(** [call_tool] on a registered tool whose arguments miss required fields
    returns the [RuntimeError] of [validate_required_args] as text, before
    any service is called: the weather and air-quality tools report it as an
    unexpected error (it is no [ValueError]), the two [*_details] tools as
    [{"error": ...}] in JSON, and the time tools after their own prefix. *)
Theorem call_tool_reports_missing_arguments
  (http_get : string -> http_response) (now : Z) (today tomorrow : string)
  (zoneinfo : string -> option zone) (json_dumps py_str : json -> string)
  (isoformat_seconds : Z -> Z -> string) (get_current_weather : json -> result json)
  (get_weather_by_date_range : json -> json -> json -> result json)
  (format_current_weather_response format_weather_range_response : json -> result string)
  (get_air_quality : json -> json -> json -> result json)
  (get_current_air_quality_index : json -> result json)
  (format_air_quality_comprehensive : json -> result string)
  (fromisoformat : string -> result parsed_datetime) (args : args_t) :
  let reg := register_all_tools http_get now today tomorrow zoneinfo json_dumps py_str
               isoformat_seconds get_current_weather get_weather_by_date_range
               format_current_weather_response format_weather_range_response
               get_air_quality get_current_air_quality_index format_air_quality_comprehensive
               fromisoformat in
  let msg required := "Missing required arguments: " ++ join ", " (missing_fields args required) in
  (forall tool_name required,
     In (tool_name, required) [("get_current_weather", ["city"]);
                               ("get_weather_byDateTimeRange", ["city"; "start_date"; "end_date"]);
                               ("get_air_quality", ["city"])] ->
     missing_fields args required <> [] ->
     call_tool reg tool_name (JObj args)
     = Ok [TextContent ("Unexpected error occurred: " ++ msg required)])
  /\ (forall tool_name,
        In tool_name ["get_weather_details"; "get_air_quality_details"] ->
        missing_fields args ["city"] <> [] ->
        call_tool reg tool_name (JObj args)
        = Ok [TextContent (json_dumps (JObj [("error", JStr ("Unexpected error occurred: "
                                                              ++ msg ["city"]))]))])
  /\ (forall tool_name required prefix,
        In (tool_name, required, prefix)
           [("get_current_datetime", ["timezone_name"], "Error getting current time: ");
            ("get_timezone_info", ["timezone_name"], "Error getting timezone info: ");
            ("convert_time", ["datetime_str"; "from_timezone"; "to_timezone"],
             "Error converting time: ")] ->
        missing_fields args required <> [] ->
        call_tool reg tool_name (JObj args) = Ok [TextContent (prefix ++ msg required)]).
Proof.
  intros reg msg. subst reg msg.
  split; [|split].
  - intros tool_name required Hin Hm.
    destruct Hin as [[= <- <-]|[[= <- <-]|[[= <- <-]|[]]]]; cbn;
      [ unfold run_get_current_weather
      | unfold run_get_weather_by_date_range
      | unfold run_get_air_quality, air_quality_response_data ];
      rewrite (validate_required_args_missing _ _ Hm); reflexivity.
  - intros tool_name Hin Hm.
    destruct Hin as [<-|[<-|[]]]; cbn;
      [ unfold run_get_weather_details
      | unfold run_get_air_quality_details, air_quality_response_data ];
      rewrite (validate_required_args_missing _ _ Hm); reflexivity.
  - intros tool_name required prefix Hin Hm.
    destruct Hin as [[= <- <- <-]|[[= <- <- <-]|[[= <- <- <-]|[]]]]; cbn;
      [ unfold run_get_current_datetime
      | unfold run_get_timezone_info
      | unfold run_convert_time ];
      rewrite (validate_required_args_missing _ _ Hm); reflexivity.
Qed.

Lemma py_lower_app (s t : string) : py_lower (s ++ t) = py_lower s ++ py_lower t.
Proof. induction s as [|c s IH]; simpl; [reflexivity|now rewrite IH]. Qed.

Lemma py_lower_length (s : string) : String.length (py_lower s) = String.length s.
Proof. induction s as [|c s IH]; simpl; [reflexivity|now rewrite IH]. Qed.

Lemma substring_app_prefix (s t : string) :
  substring 0 (String.length s) (s ++ t) = s.
Proof.
  induction s as [|c s IH]; simpl; [now destruct t|now rewrite IH].
Qed.

Lemma substring_app_suffix (s t : string) :
  substring (String.length s) (String.length t) (s ++ t) = t.
Proof.
  induction s as [|c s IH]; simpl; [|exact IH].
  induction t as [|c t IH]; simpl; [reflexivity|now rewrite IH].
Qed.

Lemma length_app_string (s t : string) :
  String.length (s ++ t) = (String.length s + String.length t)%nat.
Proof. induction s as [|c s IH]; simpl; [reflexivity|now rewrite IH]. Qed.

Lemma py_endswith_app (s : string) : py_endswith "Z" (s ++ "Z") = true.
Proof.
  unfold py_endswith. rewrite length_app_string, Nat.add_sub, substring_app_suffix.
  rewrite String.eqb_refl, andb_true_r. apply Nat.leb_le. lia.
Qed.

(** [convert_time] on a [datetime_str] [s] other than ["now"], whatever
    [datetime.fromisoformat] accepts: [s + "Z"] gives the same source time
    as [s], since the trailing ["Z"] is cut off before parsing, not read as
    UTC; and that source time is the parsed wall clock taken in
    [from_timezone], any offset written in [s] being dropped by
    [replace(tzinfo=from_timezone)]. *)
Theorem convert_time_reads_wall_clock (now : Z)
  (fromisoformat : string -> result parsed_datetime) (from_timezone : zone) (s : string)
  (naive_time : parsed_datetime)
  (Hnow : py_lower s <> "now") (Hz : py_endswith "Z" s = false)
  (Hparse : fromisoformat s = Ok naive_time) :
  let off := utcoffset_local from_timezone (p_local naive_time) in
  convert_source_time now fromisoformat (JStr (s ++ "Z")) from_timezone
  = convert_source_time now fromisoformat (JStr s) from_timezone
  /\ convert_source_time now fromisoformat (JStr s) from_timezone
     = Ok (p_local naive_time - off * 1000000, off).
Proof.
  intro off.
  assert (Hs : convert_source_time now fromisoformat (JStr s) from_timezone
               = Ok (p_local naive_time - off * 1000000, off)).
  { unfold convert_source_time. apply String.eqb_neq in Hnow.
    rewrite Hnow, Hz, Hparse. reflexivity. }
  split; [|exact Hs]. rewrite Hs. unfold convert_source_time.
  assert (Hnow' : String.eqb (py_lower (s ++ "Z")) "now" = false).
  { apply String.eqb_neq. rewrite py_lower_app. simpl.
    intro H.
    destruct (py_lower s) as [|c0 [|c1 [|c2 [|c3 r]]]]; simpl in H; discriminate. }
  rewrite Hnow', py_endswith_app, length_app_string. simpl String.length.
  replace (String.length s + 1 - 1)%nat with (String.length s) by lia.
  rewrite substring_app_prefix, Hparse. reflexivity.
Qed.

(* ------------------------------------------------------------------ *)
(** ** Witnesses: the hypotheses of the theorems above hold on sample inputs *)

Lemma get_pm25_level_monotone_witness :
  (10 <= 40)%Q
  /\ (rank_in aq_levels (get_pm25_level 10) <= rank_in aq_levels (get_pm25_level 40))%nat.
Proof.
  assert (H : (10 <= 40)%Q) by (apply Qle_bool_iff; reflexivity).
  split; [exact H|]. exact (get_pm25_level_monotone 10 40 H).
Defined.

Lemma get_closest_utc_index_clamps_witness :
  map_result isoparse example_hourly_times = Ok example_parsed_times
  /\ Forall utc_in_range example_parsed_times
  /\ strictly_ascending (map to_utc example_parsed_times) = true
  /\ (0 < length example_hourly_times)%nat
  /\ (1704060000000000 <= to_utc (nth 0 example_parsed_times epoch_naive) ->
      get_closest_utc_index 1704060000000000 example_hourly_times = Ok 0%nat)
  /\ (to_utc (nth (length example_hourly_times - 1) example_parsed_times epoch_naive)
        <= 1704060000000000 ->
      get_closest_utc_index 1704060000000000 example_hourly_times
        = Ok (length example_hourly_times - 1)%nat).
Proof.
  assert (Hp : map_result isoparse example_hourly_times = Ok example_parsed_times)
    by (vm_compute; reflexivity).
  pose proof example_parsed_times_in_range as Hrange.
  assert (Hs : strictly_ascending (map to_utc example_parsed_times) = true)
    by (vm_compute; reflexivity).
  assert (Hn : (0 < length example_hourly_times)%nat) by (simpl; lia).
  split; [exact Hp|]. split; [exact Hrange|]. split; [exact Hs|]. split; [exact Hn|].
  exact (get_closest_utc_index_clamps 1704060000000000 example_hourly_times
           example_parsed_times Hp Hrange Hs Hn).
Defined.

Lemma get_closest_utc_index_within_half_gap_witness :
  map_result isoparse example_hourly_times = Ok example_parsed_times
  /\ Forall utc_in_range example_parsed_times
  /\ 0 <= 3600000000
  /\ gaps_at_most 3600000000 (map to_utc example_parsed_times) = true
  /\ (0 < length example_hourly_times)%nat
  /\ to_utc (nth 0 example_parsed_times epoch_naive) <= 1704072000000000
     <= last (map to_utc example_parsed_times) 0
  /\ exists i,
       get_closest_utc_index 1704072000000000 example_hourly_times = Ok i
       /\ (i < length example_hourly_times)%nat
       /\ 2 * Z.abs (to_utc (nth i example_parsed_times epoch_naive) - 1704072000000000)
          <= 3600000000.
Proof.
  assert (Hp : map_result isoparse example_hourly_times = Ok example_parsed_times)
    by (vm_compute; reflexivity).
  pose proof example_parsed_times_in_range as Hrange.
  assert (Hg : 0 <= 3600000000) by lia.
  assert (Hgaps : gaps_at_most 3600000000 (map to_utc example_parsed_times) = true)
    by (vm_compute; reflexivity).
  assert (Hn : (0 < length example_hourly_times)%nat) by (simpl; lia).
  assert (Hin : to_utc (nth 0 example_parsed_times epoch_naive) <= 1704072000000000
                <= last (map to_utc example_parsed_times) 0) by (vm_compute; split; discriminate).
  split; [exact Hp|]. split; [exact Hrange|]. split; [exact Hg|]. split; [exact Hgaps|]. split; [exact Hn|].
  split; [exact Hin|].
  exact (get_closest_utc_index_within_half_gap 1704072000000000 3600000000
           example_hourly_times example_parsed_times Hp Hrange Hg Hgaps Hn Hin).
Defined.

Lemma get_current_air_quality_index_readings_witness :
  obj_lookup "hourly" [("hourly", JObj example_aq_hourly)] = Some (JObj example_aq_hourly)
  /\ obj_lookup "time" example_aq_hourly = Some (JArr (map JStr example_hourly_times))
  /\ map_result isoparse example_hourly_times = Ok example_parsed_times
  /\ Forall utc_in_range example_parsed_times
  /\ (0 < length example_hourly_times)%nat
  /\ exists i current_aq,
    get_closest_utc_index 1704072000000000 example_hourly_times = Ok i
    /\ AirQualityService.get_current_air_quality_index 1704072000000000
         (JObj [("hourly", JObj example_aq_hourly)]) = Ok (JObj current_aq)
    /\ hd_error current_aq = Some ("time", JStr (nth i example_hourly_times ""))
    /\ NoDup (map fst current_aq)
    /\ forall key,
         obj_lookup key current_aq
         = if String.eqb key "time" then Some (JStr (nth i example_hourly_times ""))
           else match obj_lookup key example_aq_hourly with
                | Some (JArr l) => if Nat.ltb i (length l) then Some (nth i l JNull) else None
                | _ => None
                end.
Proof.
  assert (Hh : obj_lookup "hourly" [("hourly", JObj example_aq_hourly)]
               = Some (JObj example_aq_hourly)) by reflexivity.
  assert (Ht : obj_lookup "time" example_aq_hourly = Some (JArr (map JStr example_hourly_times)))
    by reflexivity.
  assert (Hp : map_result isoparse example_hourly_times = Ok example_parsed_times)
    by (vm_compute; reflexivity).
  pose proof example_parsed_times_in_range as Hrange.
  assert (Hn : (0 < length example_hourly_times)%nat) by (simpl; lia).
  split; [exact Hh|]. split; [exact Ht|]. split; [exact Hp|]. split; [exact Hrange|]. split; [exact Hn|].
  exact (get_current_air_quality_index_readings 1704072000000000
           [("hourly", JObj example_aq_hourly)] example_aq_hourly example_hourly_times
           example_parsed_times Hh Ht Hp Hrange Hn).
Defined.

Lemma get_current_weather_reads_closest_hour_witness :
  get_coordinates example_http_get "Paris" = Ok (JNum (1 # 1), JNum (2 # 1))
  /\ example_http_get (WeatherService.current_weather_url (fun _ => "Paris")
                         (JNum (1 # 1)) (JNum (2 # 1)))
     = Response 200 (Some (JObj [("hourly", JObj example_weather_hourly)]))
  /\ obj_lookup "hourly" [("hourly", JObj example_weather_hourly)]
     = Some (JObj example_weather_hourly)
  /\ obj_lookup "time" example_weather_hourly = Some (JArr (map JStr example_hourly_times))
  /\ map_result isoparse example_hourly_times = Ok example_parsed_times
  /\ Forall utc_in_range example_parsed_times
  /\ (0 < length example_hourly_times)%nat
  /\ series_ready WeatherService.current_weather_fields (length example_hourly_times)
       example_weather_hourly = true
  /\ codes_hashable example_weather_hourly = true
  /\ exists i,
    get_closest_utc_index 1704072000000000 example_hourly_times = Ok i
    /\ WeatherService.get_current_weather example_http_get 1704072000000000 (fun _ => "Paris")
         (JStr "Paris")
       = Ok (JObj ([("city", JStr "Paris"); ("latitude", JNum (1 # 1));
                    ("longitude", JNum (2 # 1))]
                   ++ map (fun '(out, src) => (out, field_value example_weather_hourly i src))
                          WeatherService.current_weather_fields)).
Proof.
  assert (Hgeo : get_coordinates example_http_get "Paris" = Ok (JNum (1 # 1), JNum (2 # 1)))
    by (vm_compute; reflexivity).
  assert (Hresp : example_http_get (WeatherService.current_weather_url (fun _ => "Paris")
                                      (JNum (1 # 1)) (JNum (2 # 1)))
                  = Response 200 (Some (JObj [("hourly", JObj example_weather_hourly)])))
    by (vm_compute; reflexivity).
  assert (Hh : obj_lookup "hourly" [("hourly", JObj example_weather_hourly)]
               = Some (JObj example_weather_hourly)) by reflexivity.
  assert (Ht : obj_lookup "time" example_weather_hourly
               = Some (JArr (map JStr example_hourly_times))) by (vm_compute; reflexivity).
  assert (Hp : map_result isoparse example_hourly_times = Ok example_parsed_times)
    by (vm_compute; reflexivity).
  pose proof example_parsed_times_in_range as Hrange.
  assert (Hn : (0 < length example_hourly_times)%nat) by (simpl; lia).
  assert (Hr : series_ready WeatherService.current_weather_fields (length example_hourly_times)
                 example_weather_hourly = true) by (vm_compute; reflexivity).
  assert (Hc : codes_hashable example_weather_hourly = true) by (vm_compute; reflexivity).
  do 9 (split; [assumption|]).
  exact (get_current_weather_reads_closest_hour example_http_get 1704072000000000
           (fun _ => "Paris") (JStr "Paris") (JNum (1 # 1)) (JNum (2 # 1))
           [("hourly", JObj example_weather_hourly)] example_weather_hourly
           example_hourly_times example_parsed_times Hgeo Hresp Hh Ht Hp Hrange Hn Hr Hc).
Defined.

Lemma get_weather_by_date_range_one_record_per_hour_witness :
  get_coordinates example_http_get "Paris" = Ok (JNum (1 # 1), JNum (2 # 1))
  /\ example_http_get (WeatherService.weather_range_url (fun _ => "Paris")
                         (JNum (1 # 1)) (JNum (2 # 1)) (JStr "2024-01-01") (JStr "2024-01-02"))
     = Response 200 (Some (JObj [("hourly", JObj example_weather_hourly)]))
  /\ obj_lookup "hourly" [("hourly", JObj example_weather_hourly)]
     = Some (JObj example_weather_hourly)
  /\ obj_lookup "time" example_weather_hourly = Some (JArr (map JStr example_hourly_times))
  /\ series_ready WeatherService.range_weather_fields
       (length (map JStr example_hourly_times)) example_weather_hourly = true
  /\ codes_hashable example_weather_hourly = true
  /\ WeatherService.get_weather_by_date_range example_http_get (fun _ => "Paris") (JStr "Paris")
       (JStr "2024-01-01") (JStr "2024-01-02")
     = Ok (JObj [("city", JStr "Paris"); ("latitude", JNum (1 # 1));
                 ("longitude", JNum (2 # 1));
                 ("start_date", JStr "2024-01-01"); ("end_date", JStr "2024-01-02");
                 ("weather_data",
                  JArr (map (fun i => JObj (map (fun '(out, src) =>
                                                   (out, field_value example_weather_hourly i src))
                                                WeatherService.range_weather_fields))
                            (seq 0 (length (map JStr example_hourly_times)))))]).
Proof.
  assert (Hgeo : get_coordinates example_http_get "Paris" = Ok (JNum (1 # 1), JNum (2 # 1)))
    by (vm_compute; reflexivity).
  assert (Hresp : example_http_get (WeatherService.weather_range_url (fun _ => "Paris")
                    (JNum (1 # 1)) (JNum (2 # 1)) (JStr "2024-01-01") (JStr "2024-01-02"))
                  = Response 200 (Some (JObj [("hourly", JObj example_weather_hourly)])))
    by (vm_compute; reflexivity).
  assert (Hh : obj_lookup "hourly" [("hourly", JObj example_weather_hourly)]
               = Some (JObj example_weather_hourly)) by reflexivity.
  assert (Ht : obj_lookup "time" example_weather_hourly
               = Some (JArr (map JStr example_hourly_times))) by (vm_compute; reflexivity).
  assert (Hr : series_ready WeatherService.range_weather_fields
                 (length (map JStr example_hourly_times)) example_weather_hourly = true)
    by (vm_compute; reflexivity).
  assert (Hc : codes_hashable example_weather_hourly = true) by (vm_compute; reflexivity).
  do 6 (split; [assumption|]).
  exact (get_weather_by_date_range_one_record_per_hour example_http_get (fun _ => "Paris")
           (JStr "Paris") (JStr "2024-01-01") (JStr "2024-01-02") (JNum (1 # 1)) (JNum (2 # 1))
           [("hourly", JObj example_weather_hourly)] example_weather_hourly
           (map JStr example_hourly_times) Hgeo Hresp Hh Ht Hr Hc).
Defined.

Lemma get_air_quality_outcomes_witness :
  (JNull = JArr (map JStr ["pm10"; "pm2_5"; "ozone"; "nitrogen_dioxide"; "carbon_monoxide"])
   \/ (JNull = JNull
       /\ ["pm10"; "pm2_5"; "ozone"; "nitrogen_dioxide"; "carbon_monoxide"]
          = ["pm10"; "pm2_5"; "ozone"; "nitrogen_dioxide"; "carbon_monoxide"]))
  /\ (let url := AirQualityService.BASE_AIR_QUALITY_URL ++ "?latitude=" ++ "48.85"
                 ++ "&longitude=" ++ "2.35"
                 ++ "&hourly=" ++ join "," ["pm10"; "pm2_5"; "ozone"; "nitrogen_dioxide";
                                            "carbon_monoxide"] ++ "&timezone=GMT" in
      let r := AirQualityService.get_air_quality (fun _ => Response 503 None)
                 (fun v => match v with JNum _ => "48.85" | _ => "2.35" end)
                 (JNum (4885 # 100)) JNull JNull in
      (forall v, Response 503 None = Response 200 (Some v) -> r = Ok v)
      /\ (forall status_code b, Response 503 None = Response status_code b ->
            status_code <> 200 ->
            r = Raise (ValueError ("Air Quality API returned status "
                                   ++ z_to_string status_code)))
      /\ (forall m, Response 503 None = RequestError m ->
            r = Raise (ValueError ("Network error while fetching air quality data: " ++ m)))
      /\ (Response 503 None = Response 200 None ->
            r = Raise (ValueError "Expecting value: line 1 column 1 (char 0)"))).
Proof.
  assert (Hv : JNull = JArr (map JStr ["pm10"; "pm2_5"; "ozone"; "nitrogen_dioxide";
                                        "carbon_monoxide"])
               \/ (JNull = JNull
                   /\ ["pm10"; "pm2_5"; "ozone"; "nitrogen_dioxide"; "carbon_monoxide"]
                      = ["pm10"; "pm2_5"; "ozone"; "nitrogen_dioxide"; "carbon_monoxide"]))
    by (right; split; reflexivity).
  split; [exact Hv|].
  exact (get_air_quality_outcomes (fun _ => Response 503 None)
           (fun v => match v with JNum _ => "48.85" | _ => "2.35" end)
           (JNum (4885 # 100)) JNull JNull
           ["pm10"; "pm2_5"; "ozone"; "nitrogen_dioxide"; "carbon_monoxide"] Hv).
Defined.


Lemma convert_time_reads_wall_clock_witness :
  py_lower "2024-01-01T12:00:00+05:00" <> "now"
  /\ py_endswith "Z" "2024-01-01T12:00:00+05:00" = false
  /\ isoparse "2024-01-01T12:00:00+05:00"
     = Ok {| p_local := 1704110400000000; p_offset := Some 18000000000 |}
  /\ convert_source_time 0 isoparse (JStr ("2024-01-01T12:00:00+05:00" ++ "Z"))
       new_york_standard
     = convert_source_time 0 isoparse (JStr "2024-01-01T12:00:00+05:00") new_york_standard
  /\ convert_source_time 0 isoparse (JStr "2024-01-01T12:00:00+05:00") new_york_standard
     = Ok (1704110400000000 - utcoffset_local new_york_standard 1704110400000000 * 1000000,
           utcoffset_local new_york_standard 1704110400000000).
Proof.
  assert (Hnow : py_lower "2024-01-01T12:00:00+05:00" <> "now")
    by (vm_compute; discriminate).
  assert (Hz : py_endswith "Z" "2024-01-01T12:00:00+05:00" = false) by (vm_compute; reflexivity).
  assert (Hp : isoparse "2024-01-01T12:00:00+05:00"
               = Ok {| p_local := 1704110400000000; p_offset := Some 18000000000 |})
    by (vm_compute; reflexivity).
  split; [exact Hnow|]. split; [exact Hz|]. split; [exact Hp|].
  exact (convert_time_reads_wall_clock 0 isoparse new_york_standard
           "2024-01-01T12:00:00+05:00"
           {| p_local := 1704110400000000; p_offset := Some 18000000000 |} Hnow Hz Hp).
Defined.
